(** * Batch table jobs of the ERCOT example systems

    A shallow embedding of the two auxiliary scripts

    - [Example_Systems/ERCOT_Full_Test copy/Auxiliary/data_processing_script.py]
    - [Example_Systems/ERCOT_Full_Test_Reduced/Auxiliary/test.py]

    Both scripts are sequences of loops over a directory listing; every loop
    reads a table with pandas, transforms its columns and writes it back.
    The pandas operations the scripts call ([df[c]], [df[c] = series],
    [df.insert], [df.rename], [df[list]], [Series.sum], [DataFrame.sum(axis=1)],
    [Series + Series], [DataFrame.append], [pd.concat]) are modelled on
    frames with the default integer row index, which is what [pd.read_csv]
    and [pd.read_excel] produce in these scripts.  Where the scripts add
    cells up, the sums are those of the column's type: int64 with
    wrap-around, float64 as IEEE 754 binary64, and Python's [+] for text.

    The copier and the reconciliation loop sit in [test.py] between the
    triple quotes of lines 3 and 91; they are embedded here as they are
    written. *)

From stdpp Require Import base list strings gmap.
From Stdlib Require Import ZArith Ascii.
From Stdlib Require PrimFloat Uint63.
Import PrimFloat.PrimFloatNotations.
Number Notation PrimFloat.float PrimFloat.parser PrimFloat.printer
  : float_scope.

(** ** Exceptions *)

Inductive exn : Type :=
| KeyError (key : string)
| ValueError (msg : string)
| IndexError (msg : string)
| FileNotFoundError (path : string)
| ReadError (msg : string)
| TypeError (msg : string).

Inductive result (A : Type) : Type :=
| Ok (a : A)
| Raise (e : exn).
Arguments Ok {A} a.
Arguments Raise {A} e.

#[global] Instance result_ret : MRet result := λ A, @Ok A.
#[global] Instance result_bind : MBind result := λ A B f r,
  match r with
  | Ok a => f a
  | Raise e => Raise e
  end.

Definition raises {A} (r : result A) : Prop :=
  match r with
  | Ok _ => False
  | Raise _ => True
  end.

(** ** Strings and paths *)

(** [str.endswith] *)
Definition endswith (s suffix : string) : bool :=
  bool_decide
    (String.substring (String.length s - String.length suffix)
                      (String.length suffix) s = suffix).

(** [os.path.join] of a directory and a name that comes from [os.listdir]
    (so it never starts with a separator). *)
Definition path_join (dir name : string) : string :=
  if bool_decide (dir = "") || endswith dir "/"
  then dir +:+ name
  else dir +:+ "/" +:+ name.

(** [os.path.splitext(p)[0]] for a name without separators: the name up to
    its last dot, unless only dots come before that dot. *)
Fixpoint rfind_dot (s : string) (i : nat) : option nat :=
  match s with
  | EmptyString => None
  | String a s' =>
      match rfind_dot s' (S i) with
      | Some j => Some j
      | None => if Ascii.eqb a "."%char then Some i else None
      end
  end.

Fixpoint all_dots (s : string) : bool :=
  match s with
  | EmptyString => true
  | String a s' => Ascii.eqb a "."%char && all_dots s'
  end.

Definition splitext_root (p : string) : string :=
  match rfind_dot p 0 with
  | Some d =>
      let root := String.substring 0 d p in
      if all_dots root then p else root
  | None => p
  end.

(** ** Frames

    A cell is [Some v] or [None] (pandas' NaN, a missing value).  A series is
    the list of its cells in row order; a frame is the list of its named
    columns in column order.  The row index is the default [0 .. n-1], so it
    is represented by its length alone. *)

Abbreviation Series V := (list (option V)).
Abbreviation DataFrame V := (list (string * list (option V))).

Section frame.
Context {V : Type}.

(** [df.columns] *)
Definition columns (df : DataFrame V) : list string := df.*1.

(** [len(df.index)] *)
Definition nrows (df : DataFrame V) : nat :=
  match df with
  | [] => 0
  | (_, s) :: _ => length s
  end.

(** The frames [read_csv] and [read_excel] return: distinct column names
    (duplicates in a header are renamed on reading) and columns of one
    length. *)
Definition wf_frame (df : DataFrame V) : Prop :=
  NoDup (columns df) ∧ Forall (λ col, length col.2 = nrows df) df.

(** [c in df] *)
Definition contains (df : DataFrame V) (c : string) : bool :=
  bool_decide (c ∈ columns df).

(** [df[c]] *)
Fixpoint getitem (df : DataFrame V) (c : string) : result (Series V) :=
  match df with
  | [] => Raise (KeyError c)
  | (n, s) :: df' => if decide (n = c) then Ok s else getitem df' c
  end.

(** A series aligned to the index [0 .. n-1]: rows past [n] are dropped,
    rows the series lacks are missing. *)
Definition reindex (n : nat) (s : Series V) : Series V :=
  take n s ++ replicate (n - length s) None.

(** A frame with no rows put on the index [0 .. m-1] of a non-empty value:
    its columns become missing values on that index.  A frame that has rows
    keeps its index. *)
Definition adopt_index (m : nat) (df : DataFrame V) : DataFrame V :=
  if bool_decide (nrows df = 0 ∧ 0 < m)
  then prod_map id (reindex m) <$> df
  else df.

(** The length of the index of [df] after that. *)
Definition rows_after (m : nat) (df : DataFrame V) : nat :=
  if bool_decide (nrows df = 0) then m else nrows df.

(** [DataFrame._ensure_valid_index], called before a value is stored. *)
Definition ensure_valid_index (df : DataFrame V) (value : Series V)
  : DataFrame V :=
  adopt_index (length value) df.

(** [len(df.index)] once that has been done. *)
Definition index_len (df : DataFrame V) (value : Series V) : nat :=
  rows_after (length value) df.

(** Storing a column that is already aligned: an existing column is
    overwritten where it stands, a new one is added last. *)
Definition set_column (df : DataFrame V) (c : string) (v : Series V)
  : DataFrame V :=
  if contains df c
  then (λ col, if decide (col.1 = c) then (c, v) else col) <$> df
  else df ++ [(c, v)].

(** [df[c] = value] for a series [value]: the frame's index is settled
    first, then the value is aligned on it ([value.reindex(df.index)]) and
    stored. *)
Definition setitem (df : DataFrame V) (c : string) (value : Series V)
  : DataFrame V :=
  set_column (ensure_valid_index df value) c
             (reindex (index_len df value) value).

(** [df.insert(loc, c, value)] with the default [allow_duplicates=False]:
    a name the frame already has is refused; the value is aligned as in an
    assignment. *)
Definition insert (df : DataFrame V) (loc : nat) (c : string)
    (value : Series V) : result (DataFrame V) :=
  if contains df c
  then Raise (ValueError ("cannot insert " +:+ c +:+ ", already exists"))
  else if decide (loc ≤ length df)
  then
    let v := reindex (index_len df value) value in
    let df' := ensure_valid_index df value in
    Ok (take loc df' ++ (c, v) :: drop loc df')
  else Raise (IndexError "index out of bounds").

(** [df[cs]] for a list of names. *)
Fixpoint getitem_list (df : DataFrame V) (cs : list string)
  : result (DataFrame V) :=
  match cs with
  | [] => Ok []
  | c :: cs' =>
      s ← getitem df c;
      rest ← getitem_list df cs';
      mret ((c, s) :: rest)
  end.

(** [df.rename(columns=mapping)]: a name that is a key is replaced by its
    value, any other name stays (the default [errors='ignore']). *)
Definition rename_label (mapping : gmap string string) (c : string)
  : string :=
  default c (mapping !! c).

Definition rename (mapping : gmap string string) (df : DataFrame V)
  : DataFrame V :=
  prod_map (rename_label mapping) id <$> df.

End frame.

(** ** Runs

    What a job does to the outside is recorded as a trace of events in the
    order they happen; a job ends normally or with the exception that
    aborted it. *)

Inductive event (F : Type) : Type :=
| Wrote (path : string) (content : F)
| Printed (line : string).
Arguments Wrote {F} path content.
Arguments Printed {F} line.

Record run (F : Type) : Type := Run {
  trace : list (event F);
  raised : option exn
}.
Arguments Run {F} trace raised.
Arguments trace {F} r.
Arguments raised {F} r.

(** The files written and the lines printed along a trace. *)
Definition writes {F} (t : list (event F)) : list (string * F) :=
  omap (λ e, match e with Wrote p c => Some (p, c) | Printed _ => None end) t.

Definition prints {F} (t : list (event F)) : list string :=
  omap (λ e, match e with Wrote _ _ => None | Printed l => Some l end) t.

Definition written {F} (r : run F) : list (string * F) := writes (trace r).
Definition console {F} (r : run F) : list string := prints (trace r).

(** One more event in front of a run. *)
Definition after {F} (e : event F) (r : run F) : run F :=
  Run (e :: trace r) (raised r).

(** [r] and, when it ends normally, [k] after it. *)
Definition and_then {F} (r k : run F) : run F :=
  match raised r with
  | Some e => r
  | None => Run (trace r ++ trace k) (raised k)
  end.

(** * test.py *)

Module TestPy.

(** ** Column renamer (lines 92-110) *)

Definition rename_pairs : list (string * string) :=
  [ ("TRE_WEST_wind_1", "TRE_WEST_landbasedwind_class1_moderate_1");
    ("TRE_WEST_wind_2", "TRE_WEST_landbasedwind_class1_moderate_2");
    ("TRE_WEST_wind_3", "TRE_WEST_landbasedwind_class1_moderate_3");
    ("TRE_wind_4", "TRE_landbasedwind_class1_moderate_4");
    ("TRE_wind_5", "TRE_landbasedwind_class1_moderate_5");
    ("TRE_wind_6", "TRE_landbasedwind_class1_moderate_6");
    ("TRE_WEST_solar_pv_7", "TRE_WEST_utilitypv_class1_moderate_1");
    ("TRE_WEST_solar_pv_8", "TRE_WEST_utilitypv_class1_moderate_2");
    ("TRE_WEST_solar_pv_9", "TRE_WEST_utilitypv_class1_moderate_3");
    ("TRE_solar_pv_10", "TRE_utilitypv_class1_moderate_4");
    ("TRE_solar_pv_11", "TRE_utilitypv_class1_moderate_5") ].

Definition columns_to_rename : gmap string string := list_to_map rename_pairs.

(** The body of the loop: [df.rename(columns=columns_to_rename, inplace=True)]. *)
Definition rename_columns {V} (df : DataFrame V) : DataFrame V :=
  rename columns_to_rename df.

(** The loop over [os.listdir(folder_path)]: the directory is the list of
    its entries, each with the table [read_csv] returns for it. *)
Fixpoint rename_loop {V} (folder_path : string)
    (listing : list (string * DataFrame V)) : run (DataFrame V) :=
  match listing with
  | [] => Run [] None
  | (file_name, df) :: rest =>
      if endswith file_name ".csv"
      then after (Wrote (path_join folder_path file_name) (rename_columns df))
                 (rename_loop folder_path rest)
      else rename_loop folder_path rest
  end.

(** ** Column replacer (lines 113-139) *)

Definition folder_path1 : string := "Generators_variability/test_folder".
Definition folder_path2 : string := "Generators_variability".

Definition columns_to_replace : list string :=
  [ "TRE_WEST_landbasedwind_class1_moderate_1";
    "TRE_WEST_landbasedwind_class1_moderate_2";
    "TRE_WEST_landbasedwind_class1_moderate_3";
    "TRE_landbasedwind_class1_moderate_4";
    "TRE_landbasedwind_class1_moderate_5";
    "TRE_landbasedwind_class1_moderate_6";
    "TRE_WEST_utilitypv_class1_moderate_1";
    "TRE_WEST_utilitypv_class1_moderate_2";
    "TRE_WEST_utilitypv_class1_moderate_3";
    "TRE_utilitypv_class1_moderate_4";
    "TRE_utilitypv_class1_moderate_5" ].

(** [pd.read_csv(os.path.join(folder, file_name))] on a folder given as the
    map from the names of its files to their tables. *)
Definition read_csv {V} (folder : string) (files : gmap string (DataFrame V))
    (file_name : string) : result (DataFrame V) :=
  match files !! file_name with
  | Some df => Ok df
  | None => Raise (FileNotFoundError (path_join folder file_name))
  end.

(** [for column in cols: df1[column] = df2[column]] *)
Fixpoint replace_columns {V} (df1 df2 : DataFrame V) (cols : list string)
  : result (DataFrame V) :=
  match cols with
  | [] => Ok df1
  | column :: rest =>
      s ← getitem df2 column;
      replace_columns (setitem df1 column s) df2 rest
  end.

(** The loop over [os.listdir(folder_path1)]; the first folder is the list
    of its entries with their tables, the second a map from names. *)
Fixpoint replace_loop {V} (listing : list (string * DataFrame V))
    (folder2 : gmap string (DataFrame V)) : run (DataFrame V) :=
  match listing with
  | [] => Run [] None
  | (file_name, df1) :: rest =>
      if endswith file_name ".csv"
      then
        match df2 ← read_csv folder_path2 folder2 file_name;
              replace_columns df1 df2 columns_to_replace with
        | Ok df =>
            after (Wrote (path_join folder_path1 file_name) df)
                  (replace_loop rest folder2)
        | Raise e => Run [] (Some e)
        end
      else replace_loop rest folder2
  end.

(** The loop and the [print] that follows it. *)
Definition replace_job {V} (listing : list (string * DataFrame V))
    (folder2 : gmap string (DataFrame V)) : run (DataFrame V) :=
  and_then (replace_loop listing folder2)
           (Run [Printed "All files processed."] None).

(** ** Column-range copier (lines 29-60) *)

Definition start_col : nat := 1.
Definition end_col : nat := 33.

(** [l[start:stop]] for non-negative bounds. *)
Definition slice {A} (start stop : nat) (l : list A) : list A :=
  take (stop - start) (drop start l).

(** [source_df.columns[first:last+1]] *)
Definition columns_to_copy {V} (first last : nat) (source_df : DataFrame V)
  : list string :=
  slice first (last + 1) (columns source_df).

(** [for col in cols: target_df.insert(0, col, source_df[col])] *)
Fixpoint insert_columns {V} (source_df target_df : DataFrame V)
    (cols : list string) : result (DataFrame V) :=
  match cols with
  | [] => Ok target_df
  | col :: rest =>
      s ← getitem source_df col;
      target_df' ← insert target_df 0 col s;
      insert_columns source_df target_df' rest
  end.

Definition copy_columns {V} (first last : nat)
    (source_df target_df : DataFrame V) : result (DataFrame V) :=
  insert_columns source_df target_df (columns_to_copy first last source_df).

Fixpoint copy_loop {V} (first last : nat) (source_df : DataFrame V)
    (folder_path : string) (listing : list (string * DataFrame V))
  : run (DataFrame V) :=
  match listing with
  | [] => Run [] None
  | (file_name, target_df) :: rest =>
      if endswith file_name ".csv"
      then
        match copy_columns first last source_df target_df with
        | Ok df =>
            after (Wrote (path_join folder_path file_name) df)
              (after (Printed ("Columns inserted into " +:+ file_name))
                 (copy_loop first last source_df folder_path rest))
        | Raise e => Run [] (Some e)
        end
      else copy_loop first last source_df folder_path rest
  end.

Definition copy_job {V} (source_df : DataFrame V)
    (listing : list (string * DataFrame V)) : run (DataFrame V) :=
  and_then (copy_loop start_col end_col source_df "Generators_variability/" listing)
           (Run [Printed "All files processed."] None).

(** ** Column reconciliation (lines 62-90) *)

Section reconcile.
Context {V : Type}.

(** The order in which Python iterates over a [set] is not specified:
    [set_iter] is any enumeration of the elements. *)
Context (set_iter : gset string → list string).

(** [set(reference_df.columns) - set(current_df.columns)] *)
Definition missing_columns (reference_df current_df : DataFrame V)
  : gset string :=
  list_to_set (columns reference_df) ∖ list_to_set (columns current_df).

(** [for column in cols: current_df[column] = reference_df[column]] *)
Fixpoint add_columns (reference_df current_df : DataFrame V)
    (cols : list string) : result (DataFrame V) :=
  match cols with
  | [] => Ok current_df
  | column :: rest =>
      s ← getitem reference_df column;
      add_columns reference_df (setitem current_df column s) rest
  end.

Definition reconcile (reference_df current_df : DataFrame V)
  : result (DataFrame V) :=
  current_df' ← add_columns reference_df current_df
                  (set_iter (missing_columns reference_df current_df));
  getitem_list current_df' (columns reference_df).

Fixpoint reconcile_loop (reference_df : DataFrame V) (folder_path : string)
    (listing : list (string * DataFrame V)) : run (DataFrame V) :=
  match listing with
  | [] => Run [] None
  | (file_name, current_df) :: rest =>
      if endswith file_name ".csv"
      then
        match reconcile reference_df current_df with
        | Ok df =>
            after (Wrote (path_join folder_path file_name) df)
                  (reconcile_loop reference_df folder_path rest)
        | Raise e => Run [] (Some e)
        end
      else reconcile_loop reference_df folder_path rest
  end.

Definition reconcile_job (reference_df : DataFrame V)
    (listing : list (string * DataFrame V)) : run (DataFrame V) :=
  and_then (reconcile_loop reference_df "Generators_variability/test_folder" listing)
           (Run [Printed "All files processed."] None).

End reconcile.

End TestPy.

(** * data_processing_script.py *)

Module DataProcessing.

(** ** Cells and their arithmetic

    [read_excel] gives a cell of a sheet as a whole number, a number with a
    fraction or text; an empty cell is missing.  pandas keeps every column
    as an array of one type, and that type decides how its cells are added:

    - int64 when every cell is a whole number: a sum is taken modulo 2^64,
      in the range from -2^63 to 2^63 - 1;
    - float64 when no cell is text and a cell is missing or has a fraction:
      the whole numbers are converted, a sum is the IEEE 754 binary64 sum;
    - object when a cell is text: a sum is Python's [+], cell by cell. *)

Abbreviation float := PrimFloat.float.

Inductive value : Type :=
| Int (z : Z)
| Flt (f : float)
| Txt (s : string).

Inductive dtype : Type := int64 | float64 | object.

Definition is_int (c : option value) : bool :=
  match c with Some (Int _) => true | _ => false end.

Definition is_text (c : option value) : bool :=
  match c with Some (Txt _) => true | _ => false end.

(** A missing cell is NaN; in a float64 column NaN is a float like any
    other, so a float that is NaN is a missing cell. *)
Definition is_missing (c : option value) : bool :=
  match c with
  | None => true
  | Some (Flt f) => PrimFloat.is_nan f
  | Some _ => false
  end.

Definition float_cell (f : float) : option value :=
  if PrimFloat.is_nan f then None else Some (Flt f).

Definition dtype_of (s : Series value) : dtype :=
  if existsb is_text s then object
  else if forallb is_int s then int64
  else float64.

(** The type of the array [sub.values] of a selection of columns. *)
Definition frame_dtype (sub : DataFrame value) : dtype :=
  if existsb (λ col, existsb is_text col.2) sub then object
  else if forallb (λ col, forallb is_int col.2) sub then int64
  else float64.

(** Addition of int64 wraps around. *)
Definition wrap64 (z : Z) : Z := ((z + 2 ^ 63) `mod` 2 ^ 64 - 2 ^ 63)%Z.

(** The conversion of an int64 to float64: to the nearest float. *)
Definition float_of_Z (z : Z) : float :=
  let n := Z.abs z in
  let f := if (n <? 2 ^ 63)%Z
           then PrimFloat.of_uint63 (Uint63.of_Z n)
           else (PrimFloat.of_uint63 (Uint63.of_Z (n `div` 2)) * 2)%float in
  if (z <? 0)%Z then (- f)%float else f.

(** What a cell contributes to a sum that skips missing cells
    ([skipna=True] puts 0 in their place): in an int64 array, in a float64
    array, and among text. *)
Definition int_of (c : option value) : Z :=
  match c with Some (Int z) => z | _ => 0%Z end.

Definition float_or_zero (c : option value) : float :=
  match c with
  | Some (Int z) => float_of_Z z
  | Some (Flt f) => if PrimFloat.is_nan f then 0%float else f
  | _ => 0%float
  end.

Definition text_of (c : option value) : string :=
  match c with Some (Txt t) => t | _ => "" end.

(** Two floats that are the same number, or both NaN. *)
Definition same_float (a b : float) : bool :=
  PrimFloat.is_nan a && PrimFloat.is_nan b || (a =? b)%float.

(** Where pandas leaves the work to numpy or to Python and the outcome
    depends on how they go about it, the outcome is taken as given:

    - [np_sum] is the sum of a float64 array as [ndarray.sum] computes it;
      numpy chooses how the additions are grouped, and however it does,
      the sum of two floats is the number their IEEE 754 addition gives;
    - [object_row_sum sub i] is row [i] of [sub.sum(axis=1)] when a column
      of [sub] holds text;
    - [object_add a b] is [a + b] when one of the two columns holds
      text. *)
Class numerics : Type := {
  np_sum : list float → float;
  np_sum_pair x y : same_float (np_sum [x; y]) (x + y)%float = true;
  object_row_sum : DataFrame value → nat → option value;
  object_add : Series value → Series value → result (Series value)
}.

(** A result cell: what [Series.sum] returns, or a sheet name. *)
Inductive scalar : Type :=
| Num (z : Z)
| Real (f : float)
| Str (s : string).

(** What opening a spreadsheet file gives: an error, or the sheets in
    workbook order, each with its name and table. *)
Inductive workbook : Type :=
| Unreadable (err : string)
| Sheets (sheets : list (string * DataFrame value)).

(** A row of the result frame, as the dict it is appended from; the result
    frame is the list of its rows. *)
Abbreviation row := (gmap string scalar).

(** What the script writes: the per-file sums, or the concatenated table. *)
Inductive csv : Type :=
| SumRows (rows : list row)
| Table (df : DataFrame value).

Definition excel_files_directory : string := "Load_data_XL".
Definition output_directory : string := "Load_data".
Definition columns_to_sum : list string := ["FAR_WEST"; "NORTH"; "WEST"].

Section jobs.
Context `{!numerics}.

(** ** Column-sum aggregator (lines 14-49) *)

(** [series.sum()]: missing cells are skipped, the empty sum is 0.  Among
    text, [+] joins two texts and raises for a text and anything else, the
    0 in place of a missing cell included. *)
Definition series_sum (s : Series value) : result scalar :=
  match dtype_of s with
  | int64 => Ok (Num (wrap64 (foldr Z.add 0%Z (int_of <$> s))))
  | float64 => Ok (Real (np_sum (float_or_zero <$> s)))
  | object =>
      if forallb is_text s
      then Ok (Str (foldr String.append "" (text_of <$> s)))
      else Raise (TypeError "unsupported operand type(s) for +")
  end.

(** [{col: sheet_df[col].sum() for col in cols}], built onto [acc]. *)
Fixpoint sum_columns (sheet_df : DataFrame value) (cols : list string)
    (acc : row) : result row :=
  match cols with
  | [] => Ok acc
  | col :: rest =>
      s ← getitem sheet_df col;
      total ← series_sum s;
      sum_columns sheet_df rest (<[col := total]> acc)
  end.

Definition sum_data (sheet_name : string) (sheet_df : DataFrame value)
  : result row :=
  d ← sum_columns sheet_df columns_to_sum ∅;
  mret (<["Sheet" := Str sheet_name]> d).

(** [all(col in sheet_df for col in columns_to_sum)] *)
Definition has_columns (sheet_df : DataFrame value) : bool :=
  forallb (contains sheet_df) columns_to_sum.

Definition skip_notice (sheet_name excel_file : string) : string :=
  "Skipping sheet '" +:+ sheet_name +:+ "' in file '" +:+ excel_file
  +:+ "' because it doesn't have the required columns.".

(** [result_df.append(d, ignore_index=True)], the [DataFrame.append] of
    pandas before 2.0: one more row.  Every row of a result frame has the
    same keys, so the frame is kept as the list of its rows; the order in
    which [to_csv] lays out the columns is not part of the model. *)
Definition append (result_df : list row) (d : row) : list row :=
  result_df ++ [d].

(** The loop over [df.items()]: what it prints, and the result frame.  The
    sums are taken outside the [try] of the loop over the files, so an
    exception of [sum_data] ends the loop. *)
Fixpoint sum_sheets (excel_file : string)
    (sheets : list (string * DataFrame value)) (result_df : list row)
  : list string * result (list row) :=
  match sheets with
  | [] => ([], Ok result_df)
  | (sheet_name, sheet_df) :: rest =>
      if negb (has_columns sheet_df)
      then
        let '(printed, r) := sum_sheets excel_file rest result_df in
        (skip_notice sheet_name excel_file :: printed, r)
      else
        match sum_data sheet_name sheet_df with
        | Ok d => sum_sheets excel_file rest (append result_df d)
        | Raise e => ([], Raise e)
        end
  end.

Definition output_csv_path (excel_file : string) : string :=
  path_join output_directory (splitext_root excel_file +:+ "_sum.csv").

Definition error_notice (excel_file err : string) : string :=
  "Error reading " +:+ excel_file +:+ ": " +:+ err.

Definition written_notice (excel_file : string) : string :=
  "Sum of specified columns from '" +:+ excel_file +:+ "' written to '"
  +:+ output_csv_path excel_file +:+ "'".

(** [f.endswith(('.xlsx', '.xls'))] *)
Definition is_excel (f : string) : bool :=
  endswith f ".xlsx" || endswith f ".xls".

Definition excel_files (listing : list (string * workbook))
  : list (string * workbook) :=
  filter (λ entry, is_excel entry.1) listing.

Fixpoint aggregate_loop (files : list (string * workbook)) : run csv :=
  match files with
  | [] => Run [] None
  | (excel_file, Unreadable err) :: rest =>
      after (Printed (error_notice excel_file err)) (aggregate_loop rest)
  | (excel_file, Sheets sheets) :: rest =>
      let '(printed, r) := sum_sheets excel_file sheets [] in
      match r with
      | Ok result_df =>
          and_then
            (Run ((Printed <$> printed)
                  ++ [Wrote (output_csv_path excel_file) (SumRows result_df);
                      Printed (written_notice excel_file)]) None)
            (aggregate_loop rest)
      | Raise e => Run (Printed <$> printed) (Some e)
      end
  end.

Definition aggregate_job (listing : list (string * workbook)) : run csv :=
  and_then (aggregate_loop (excel_files listing))
           (Run [Printed "Processing complete."] None).

(** ** Row-wise summation and concatenation (lines 51-82) *)

(** The [columns_to_sum] of line 70. *)
Definition total_columns : list string := ["Column1"; "Column2"].

(** The cells of row [i], one for each column. *)
Definition row_cells (sub : DataFrame value) (i : nat)
  : list (option value) :=
  (λ col, mjoin (col.2 !! i)) <$> sub.

(** [sub.sum(axis=1)]: row by row over the array [sub.values], missing
    cells skipped. *)
Definition sum_axis1 (sub : DataFrame value) : Series value :=
  (λ i, match frame_dtype sub with
        | int64 =>
            Some (Int (wrap64 (foldr Z.add 0%Z (int_of <$> row_cells sub i))))
        | float64 => float_cell (np_sum (float_or_zero <$> row_cells sub i))
        | object => object_row_sum sub i
        end)
  <$> seq 0 (nrows sub).

(** [df['Total'] = df[total_columns].sum(axis=1)] *)
Definition add_total (df : DataFrame value) : result (DataFrame value) :=
  sub ← getitem_list df total_columns;
  mret (setitem df "Total" (sum_axis1 sub)).

(** The loop over [xls.sheet_names], appending to [results]. *)
Fixpoint total_sheets (sheets : list (string * DataFrame value))
    (results : list (DataFrame value)) : result (list (DataFrame value)) :=
  match sheets with
  | [] => Ok results
  | (_, df) :: rest =>
      df' ← add_total df;
      total_sheets rest (results ++ [df'])
  end.

Fixpoint total_loop (listing : list (string * workbook))
    (results : list (DataFrame value)) : result (list (DataFrame value)) :=
  match listing with
  | [] => Ok results
  | (file_name, content) :: rest =>
      if endswith file_name ".xlsx"
      then
        match content with
        | Unreadable err => Raise (ReadError err)
        | Sheets sheets =>
            results' ← total_sheets sheets results;
            total_loop rest results'
        end
      else total_loop rest results
  end.

(** [pd.concat(frames)]: the rows of the frames one after the other, under
    the columns of all frames in order of first appearance; a frame without
    a column has missing cells there. *)
Definition union_columns (frames : list (DataFrame value)) : list string :=
  foldl (λ acc c, if bool_decide (c ∈ acc) then acc else acc ++ [c])
        [] (mjoin (columns <$> frames)).

Definition column_or_missing (c : string) (df : DataFrame value)
  : Series value :=
  match getitem df c with
  | Ok s => s
  | Raise _ => replicate (nrows df) None
  end.

Definition concat (frames : list (DataFrame value))
  : result (DataFrame value) :=
  match frames with
  | [] => Raise (ValueError "No objects to concatenate")
  | _ =>
      Ok ((λ c, (c, mjoin (column_or_missing c <$> frames)))
          <$> union_columns frames)
  end.

Definition total_job (listing : list (string * workbook)) : run csv :=
  match results ← total_loop listing []; concat results with
  | Ok final_result => Run [Wrote "output.csv" (Table final_result)] None
  | Raise e => Run [] (Some e)
  end.

(** ** The script: the aggregator, then row sums and concatenation *)

Definition script (load_data_xl folder : list (string * workbook)) : run csv :=
  and_then (aggregate_job load_data_xl) (total_job folder).

End jobs.

End DataProcessing.

(** * test.py, lines 4-27: regional load totals

    The first loop of the script, which like the copier and the
    reconciliation loop stands between the triple quotes; embedded as it is
    written. *)

Module LoadTotals.
Import DataProcessing.

Definition folder_path : string := "Load_data_XL".
Definition output_directory : string := "Load_data".

(** [pd.read_excel(file_path)]: the table of the first sheet. *)
Definition read_excel (content : workbook) : result (DataFrame value) :=
  match content with
  | Unreadable err => Raise (ReadError err)
  | Sheets [] =>
      Raise (ValueError "Worksheet index 0 is invalid, 0 worksheets found")
  | Sheets ((_, df) :: _) => Ok df
  end.

Section job.
Context `{!numerics}.

(** The sum of two cells of int64 columns, which wraps around, and of two
    cells of columns of which one is float64, which is missing when either
    cell is. *)
Definition add_int64 (x y : option value) : option value :=
  Some (Int (wrap64 (int_of x + int_of y))).

Definition add_float64 (x y : option value) : option value :=
  if is_missing x || is_missing y then None
  else float_cell (float_or_zero x + float_or_zero y)%float.

(** [a + b] for two series: both are put on the rows of either index, a
    row one of them lacks being missing, and added cell by cell. *)
Definition series_add (a b : Series value) : result (Series value) :=
  let n := length a `max` length b in
  let a := reindex n a in
  let b := reindex n b in
  if existsb is_text a || existsb is_text b then object_add a b
  else if forallb is_int a && forallb is_int b
  then Ok (zip_with add_int64 a b)
  else Ok (zip_with add_float64 a b).

(** The body of the loop, from the two assignments to the selection of
    the two new columns. *)
Definition region_totals (df : DataFrame value) : result (DataFrame value) :=
  far_west ← getitem df "FAR_WEST";
  north ← getitem df "NORTH";
  s ← series_add far_west north;
  west ← getitem df "WEST";
  tre_west ← series_add s west;
  let df := setitem df "TRE_WEST" tre_west in
  coast ← getitem df "COAST";
  east ← getitem df "EAST";
  s ← series_add coast east;
  north_c ← getitem df "NORTH_C";
  s ← series_add s north_c;
  southern ← getitem df "SOUTHERN";
  s ← series_add s southern;
  south_c ← getitem df "SOUTH_C";
  tre ← series_add s south_c;
  let df := setitem df "TRE" tre in
  getitem_list df ["TRE_WEST"; "TRE"].

Definition csv_path (file_name : string) : string :=
  path_join output_directory (splitext_root file_name +:+ ".csv").

Fixpoint totals_loop (listing : list (string * workbook))
  : run (DataFrame value) :=
  match listing with
  | [] => Run [] None
  | (file_name, content) :: rest =>
      if endswith file_name ".xls" || endswith file_name ".xlsx"
      then
        match df ← read_excel content; region_totals df with
        | Ok result_df =>
            after (Wrote (csv_path file_name) result_df) (totals_loop rest)
        | Raise e => Run [] (Some e)
        end
      else totals_loop rest
  end.

Definition totals_job (listing : list (string * workbook))
  : run (DataFrame value) :=
  and_then (totals_loop listing)
    (Run [Printed "Results have been written to CSV files in the folder."]
         None).

End job.

End LoadTotals.

(** * Definitions used to state the properties *)

Section statements.
Context {V : Type}.

(** The column named [c], empty when there is none. *)
Definition column (df : DataFrame V) (c : string) : Series V :=
  match getitem df c with
  | Ok s => s
  | Raise _ => []
  end.

(** The columns [cols] stored one after the other, column [c] with the
    cells [v c]. *)
Definition assign (v : string → Series V) (df : DataFrame V)
    (cols : list string) : DataFrame V :=
  foldl (λ df c, set_column df c (v c)) df cols.

(** A frame with a column, [n] rows, on which a value of [m] rows is
    stored without touching the index. *)
Definition settled (n m : nat) (df : DataFrame V) : Prop :=
  df ≠ [] ∧ nrows df = n ∧ (n = 0 → m = 0).

(** Every column of [cols] is a column of [df], [m] rows long. *)
Definition supplies (m : nat) (df : DataFrame V) (cols : list string) : Prop :=
  ∀ c, c ∈ cols → ∃ s, getitem df c = Ok s ∧ length s = m.

(** The inserted columns, last inserted first. *)
Definition inserted (n : nat) (df : DataFrame V) (cols : list string)
  : DataFrame V :=
  reverse ((λ c, (c, reindex n (column df c))) <$> cols).

(** The reconciled table in the words of the specification: the columns
    of the reference in the reference's order, each with the target's
    cells when the target has the column and the reference's otherwise. *)
Definition reconcile_spec (ref cur : DataFrame V) : DataFrame V :=
  (λ col, (col.1, if contains cur col.1 then column cur col.1 else col.2))
  <$> ref.

(** The entries of a listing the loops take up. *)
Definition csv_entries (listing : list (string * DataFrame V))
  : list (string * DataFrame V) :=
  filter (λ entry, endswith entry.1 ".csv" = true) listing.

(** What the replacer makes of one entry of the first folder. *)
Definition replaced (folder : gmap string (DataFrame V))
    (entry : string * DataFrame V) : result (DataFrame V) :=
  src ← TestPy.read_csv TestPy.folder_path2 folder entry.1;
  TestPy.replace_columns entry.2 src TestPy.columns_to_replace.

End statements.

Section aggregator_statements.
Import DataProcessing.
Context `{!numerics}.

(** A sheet that has every column to sum. *)
Definition has_targets (sheet_df : DataFrame value) : Prop :=
  Forall (λ c, c ∈ columns sheet_df) columns_to_sum.

#[global] Instance has_targets_dec sheet_df : Decision (has_targets sheet_df) :=
  Forall_dec (λ c, c ∈ columns sheet_df) columns_to_sum.

(** Columns of whole numbers only; columns without text. *)
Definition whole (s : Series value) : Prop := Forall (λ c, is_int c) s.
Definition numeric (s : Series value) : Prop := Forall (λ c, ¬ is_text c) s.

(** A column whose sum can be taken: when a cell is text, every cell is. *)
Definition summable (s : Series value) : Prop :=
  Exists (λ c, is_text c) s → Forall (λ c, is_text c) s.

#[global] Instance summable_dec s : Decision (summable s) :=
  impl_dec (Exists_dec (λ c, is_text c) s) (Forall_dec (λ c, is_text c) s).

(** The column of the whole numbers [zs], and their sum. *)
Definition ints (zs : list Z) : Series value := (λ z, Some (Int z)) <$> zs.
Definition sum_Z (zs : list Z) : Z := foldr Z.add 0%Z zs.

(** The sum of a summable column. *)
Definition total (s : Series value) : scalar :=
  match series_sum s with
  | Ok v => v
  | Raise _ => Num 0
  end.

(** The row of a sheet that has the columns to sum. *)
Definition sheet_sums (sheet_name : string) (sheet_df : DataFrame value)
  : row :=
  <["Sheet" := Str sheet_name]>
    (foldl (λ acc col, <[col := total (column sheet_df col)]> acc)
           ∅ columns_to_sum).

(** The sheets that have every column to sum, and the others. *)
Definition complete (sheets : list (string * DataFrame value))
  : list (string * DataFrame value) :=
  filter (λ sh, has_targets sh.2) sheets.
Definition incomplete (sheets : list (string * DataFrame value))
  : list (string * DataFrame value) :=
  filter (λ sh, ¬ has_targets sh.2) sheets.


(** Every column the aggregator adds up in the sheets can be added up. *)
Definition sums_defined (sheets : list (string * DataFrame value)) : Prop :=
  ∀ sheet_name sheet_df c,
    (sheet_name, sheet_df) ∈ sheets → has_targets sheet_df →
    c ∈ columns_to_sum → summable (column sheet_df c).


End aggregator_statements.

(** ** Sample tables *)

(** The table of the concrete scenario: two rows on sheet S1. *)
Definition scenario : DataFrame DataProcessing.value :=
  [ ("FAR_WEST", ints [1; 2]);
    ("NORTH", ints [3; 4]);
    ("WEST", ints [5; 6]) ]%Z.

(** A listing with a complete and an incomplete sheet, a file that does not
    open and a file that is no spreadsheet. *)
Definition sample_listing : list (string * DataProcessing.workbook) :=
  [ ("load_2020.xlsx",
     DataProcessing.Sheets
       [("S1", scenario); ("S2", [("FAR_WEST", ints [1%Z])])]);
    ("load_2021.xls", DataProcessing.Unreadable "not a workbook");
    ("notes.txt", DataProcessing.Unreadable "") ].



(** A table that already has a Total column. *)
Definition table_with_total : DataFrame DataProcessing.value :=
  [ ("Column1", ints [1]); ("Column2", ints [2]); ("Total", ints [100]) ]%Z.

(** A table with a missing cell and no Total column. *)
Definition table_without_total : DataFrame DataProcessing.value :=
  [ ("Hour", ints [1; 2]);
    ("Column1", [Some (DataProcessing.Int 10); None]);
    ("Column2", ints [5; 7]) ]%Z.

(** A table of figures with fractions, and a table whose whole numbers add
    up to more than an int64 holds. *)
Definition fraction_table : DataFrame DataProcessing.value :=
  [ ("Column1", [Some (DataProcessing.Flt 1.5)]);
    ("Column2", [Some (DataProcessing.Flt 2.25)]) ].

Definition large_table : DataFrame DataProcessing.value :=
  [ ("Column1", ints [2 ^ 62]); ("Column2", ints [2 ^ 62]) ]%Z.

(** A folder with one spreadsheet of one sheet. *)
Definition one_sheet_folder : list (string * DataProcessing.workbook) :=
  [ ("a.xlsx", DataProcessing.Sheets [("S1", table_without_total)]) ].

(** A table with one of the old names and a table with none. *)
Definition wind_table : DataFrame Z :=
  [ ("Time_Index", [Some 1; Some 2]); ("TRE_wind_4", [Some 7; Some 9]) ]%Z.
Definition plain_table : DataFrame Z :=
  [ ("Time_Index", [Some 1; Some 2]) ]%Z.

(** A source with three columns and a target with one, two rows each. *)
Definition sample_source : DataFrame Z :=
  [ ("Time_Index", [Some 1; Some 2]);
    ("A", [Some 10; Some 20]);
    ("B", [Some 30; Some 40]) ]%Z.
Definition sample_target : DataFrame Z := [ ("X", [Some 7; Some 8]) ]%Z.

(** A reference with two rows and a target with one. *)
Definition sample_reference : DataFrame Z :=
  [ ("A", [Some 1; Some 2]); ("B", [Some 3; Some 4]) ]%Z.
Definition short_target : DataFrame Z :=
  [ ("Z", [Some 0]); ("A", [Some 9]) ]%Z.

(** A second file with every listed column, two rows long; a first file
    with a column of its own and one listed column; a first file with none
    of the listed columns and a single row; a first file with a header and
    no rows. *)
Definition replacement_table : DataFrame Z :=
  (λ c, (c, [Some 5; Some 6]%Z)) <$> TestPy.columns_to_replace.
Definition first_table : DataFrame Z :=
  [ ("Time_Index", [Some 1; Some 2]);
    ("TRE_landbasedwind_class1_moderate_4", [Some 0; Some 0]) ]%Z.
Definition unlisted_table : DataFrame Z := [ ("A", [Some 1]) ]%Z.
Definition header_only : DataFrame Z := [ ("Time_Index", []) ].

(** ** Further definitions for the row-wise summation *)

Section total_statements.
Import DataProcessing.
Context `{!numerics}.

(** A table with its Total column stored. *)
Definition with_total (df : DataFrame value) : DataFrame value :=
  set_column df "Total"
    (sum_axis1
       [("Column1", column df "Column1"); ("Column2", column df "Column2")]).

End total_statements.

(** The tables of all sheets the row-wise summation reads, in reading
    order: the sheets of every readable [.xlsx] entry. *)
Definition xlsx_sheets (listing : list (string * DataProcessing.workbook))
  : list (DataFrame DataProcessing.value) :=
  listing ≫= λ entry,
    if endswith entry.1 ".xlsx"
    then match entry.2 with
         | DataProcessing.Sheets sheets => sheets.*2
         | DataProcessing.Unreadable _ => []
         end
    else [].

(** The sum of a list of numbers. *)
Definition sum_nat (l : list nat) : nat := foldr Nat.add 0 l.

(** ** Further definitions for the regional totals *)

(** The columns the regional totals read. *)
Definition region_columns : list string :=
  [ "FAR_WEST"; "NORTH"; "WEST";
    "COAST"; "EAST"; "NORTH_C"; "SOUTHERN"; "SOUTH_C" ].

(** The cell in row [i] of column [c], missing when there is none. *)
Definition cell_of (df : DataFrame DataProcessing.value) (c : string)
    (i : nat) : option DataProcessing.value :=
  mjoin (column df c !! i).

(** A sheet of hourly loads in whole numbers, one whose loads add up to
    more than an int64 holds, and one with a missing cell. *)
Definition load_sheet : DataFrame DataProcessing.value :=
  [ ("FAR_WEST", ints [1; 2]); ("NORTH", ints [3; 4]);
    ("WEST", ints [5; 6]); ("COAST", ints [1; 2]);
    ("EAST", ints [1; 2]); ("NORTH_C", ints [1; 2]);
    ("SOUTHERN", ints [1; 2]); ("SOUTH_C", ints [1; 2]) ]%Z.

Definition large_sheet : DataFrame DataProcessing.value :=
  [ ("FAR_WEST", ints [2 ^ 62]); ("NORTH", ints [2 ^ 62]);
    ("WEST", ints [0]); ("COAST", ints [0]);
    ("EAST", ints [0]); ("NORTH_C", ints [0]);
    ("SOUTHERN", ints [0]); ("SOUTH_C", ints [0]) ]%Z.

Definition gap_sheet : DataFrame DataProcessing.value :=
  [ ("FAR_WEST", ints [1; 2]);
    ("NORTH", [Some (DataProcessing.Int 3); None]);
    ("WEST", ints [5; 6]); ("COAST", ints [1; 2]);
    ("EAST", ints [1; 2]); ("NORTH_C", ints [1; 2]);
    ("SOUTHERN", ints [1; 2]); ("SOUTH_C", ints [1; 2]) ]%Z.

(** A second-folder file that carries every old name of the renamer. *)
Definition old_names_table : DataFrame Z :=
  (λ p, (p.1, [Some 1%Z])) <$> TestPy.rename_pairs.

(** ** An arithmetic for the examples

    Floats added from left to right, starting with the first; columns
    with text are not used in the examples that are evaluated. *)
Definition left_to_right : DataProcessing.numerics :=
  {| DataProcessing.np_sum := λ l,
       match l with
       | [] => 0%float
       | x :: l' => foldl PrimFloat.add x l'
       end;
     DataProcessing.np_sum_pair := λ x y,
       match (x + y =? x + y)%float as b
         return (negb b && negb b || b = true) with
       | true => eq_refl
       | false => eq_refl
       end;
     DataProcessing.object_row_sum := λ _ _, None;
     DataProcessing.object_add := λ _ _,
       Raise (TypeError "unsupported operand type(s) for +") |}.

#[global] Existing Instance left_to_right.

(** * Facts about frames *)

Section frame_facts.
Context {V : Type}.
Implicit Types (df : DataFrame V) (s v : Series V) (c : string).

Lemma contains_true df c : contains df c = true ↔ c ∈ columns df.
Proof. unfold contains. apply bool_decide_eq_true. Qed.

Lemma contains_false df c : contains df c = false ↔ c ∉ columns df.
Proof. unfold contains. apply bool_decide_eq_false. Qed.

Lemma getitem_elem df c :
  c ∈ columns df → ∃ s, getitem df c = Ok s ∧ (c, s) ∈ df.
Proof.
  induction df as [|[n s] df IH]; simpl.
  - intros H. by apply elem_of_nil in H.
  - intros H. destruct (decide (n = c)) as [->|Hne].
    + exists s. split; [done | left].
    + apply elem_of_cons in H as [H|H]; [congruence|].
      destruct (IH H) as (s' & ? & ?). exists s'. split; [done | by right].
Qed.

Lemma getitem_missing df c : c ∉ columns df → getitem df c = Raise (KeyError c).
Proof.
  induction df as [|[n s] df IH]; simpl; [done|].
  intros H. apply not_elem_of_cons in H as [? ?].
  destruct (decide (n = c)); [congruence | auto].
Qed.

Lemma getitem_Ok_columns df c s : getitem df c = Ok s → c ∈ columns df.
Proof.
  intros H. destruct (decide (c ∈ columns df)) as [|Hn]; [done|].
  rewrite (getitem_missing _ _ Hn) in H. discriminate.
Qed.

Lemma getitem_Ok_elem df c s : getitem df c = Ok s → (c, s) ∈ df.
Proof.
  intros H. destruct (getitem_elem df c (getitem_Ok_columns _ _ _ H))
    as (s' & H' & ?). congruence.
Qed.

Lemma getitem_NoDup df c s :
  NoDup (columns df) → (c, s) ∈ df → getitem df c = Ok s.
Proof.
  induction df as [|[n s'] df IH]; simpl.
  - intros _ H. by apply elem_of_nil in H.
  - intros Hnd H. apply NoDup_cons in Hnd as [Hn Hnd].
    apply elem_of_cons in H as [H|H].
    + inversion H; subst. by rewrite decide_True.
    + destruct (decide (n = c)) as [->|]; [|auto].
      exfalso. apply Hn. apply list_elem_of_fmap. by exists (c, s).
Qed.

Lemma length_reindex n s : length (reindex n s) = n.
Proof.
  unfold reindex. rewrite length_app, length_take, length_replicate. lia.
Qed.

Lemma reindex_id s : reindex (length s) s = s.
Proof.
  unfold reindex. rewrite firstn_all, Nat.sub_diag. apply app_nil_r.
Qed.

Lemma columns_set_column df c v :
  columns (set_column df c v)
  = if contains df c then columns df else columns df ++ [c].
Proof.
  unfold set_column, columns. destruct (contains df c).
  - rewrite <- list_fmap_compose. apply list_fmap_ext.
    intros i [n s] _. simpl. by destruct (decide (n = c)) as [->|].
  - by rewrite fmap_app.
Qed.

Lemma getitem_app_l df df' c :
  c ∈ columns df → getitem (df ++ df') c = getitem df c.
Proof.
  induction df as [|[n s] df IH]; simpl.
  - intros H. by apply elem_of_nil in H.
  - intros H. destruct (decide (n = c)); [done|].
    apply elem_of_cons in H as [?|?]; [congruence | auto].
Qed.

Lemma getitem_app_r df df' c :
  c ∉ columns df → getitem (df ++ df') c = getitem df' c.
Proof.
  induction df as [|[n s] df IH]; simpl; [done|].
  intros H. apply not_elem_of_cons in H as [? ?].
  destruct (decide (n = c)); [congruence | auto].
Qed.

Lemma getitem_set_column_eq df c v : getitem (set_column df c v) c = Ok v.
Proof.
  unfold set_column. destruct (contains df c) eqn:E.
  - apply contains_true in E.
    induction df as [|[n s] df IH]; simpl.
    + by apply elem_of_nil in E.
    + destruct (decide (n = c)) as [->|Hne]; simpl.
      * by rewrite decide_True.
      * rewrite decide_False by done. apply IH.
        apply elem_of_cons in E as [?|?]; [by simplify_eq/= | done].
  - apply contains_false in E. rewrite getitem_app_r by done.
    simpl. by rewrite decide_True.
Qed.

Lemma getitem_set_column_ne df c c' v :
  c ≠ c' → getitem (set_column df c v) c' = getitem df c'.
Proof.
  intros Hne. unfold set_column. destruct (contains df c) eqn:E.
  - clear E. induction df as [|[n s] df IH]; simpl; [done|].
    destruct (decide (n = c)) as [->|]; simpl.
    + rewrite !decide_False by done. apply IH.
    + destruct (decide (n = c')); [done | apply IH].
  - destruct (decide (c' ∈ columns df)) as [Hin|Hout].
    + by apply getitem_app_l.
    + rewrite getitem_app_r by done. simpl.
      rewrite decide_False by done. by rewrite getitem_missing.
Qed.

Lemma lookup_set_column_ne df c v (i : nat) (col : string * Series V) :
  df !! i = Some col → col.1 ≠ c → set_column df c v !! i = Some col.
Proof.
  intros Hi Hne. unfold set_column. destruct (contains df c).
  - rewrite list_lookup_fmap, Hi. simpl. by rewrite decide_False.
  - by apply lookup_app_l_Some.
Qed.

Lemma set_column_nonempty df c v : set_column df c v ≠ [].
Proof.
  unfold set_column. destruct (contains df c) eqn:E.
  - apply contains_true in E. destruct df; [by apply elem_of_nil in E | done].
  - by destruct df.
Qed.

Lemma nrows_set_column df c v :
  (df ≠ [] → nrows df = length v) →
  nrows (set_column df c v) = length v.
Proof.
  intros H. unfold set_column. destruct (contains df c) eqn:E.
  - apply contains_true in E. destruct df as [|[n s] df].
    + by apply elem_of_nil in E.
    + simpl. destruct (decide (n = c)); simpl; [done|]. by apply H.
  - destruct df as [|[n s] df]; simpl; [done|]. by apply H.
Qed.

End frame_facts.

(** ** Frames whose index no longer changes *)

Section settled.
Context {V : Type}.
Implicit Types (df : DataFrame V) (s : Series V) (c : string)
  (v : string → Series V).

Lemma setitem_settled n m df c s :
  settled n m df → length s = m →
  setitem df c s = set_column df c (reindex n s).
Proof.
  intros (Hne & Hn & H0) Hs.
  unfold setitem, ensure_valid_index, index_len, adopt_index, rows_after.
  rewrite Hs, Hn. case_bool_decide as H1.
  - destruct H1 as [-> ?]. specialize (H0 eq_refl). lia.
  - case_bool_decide as H2; [|done]. by rewrite H0, H2.
Qed.

Lemma settled_set_column n m df c (v : Series V) :
  settled n m df → length v = n → settled n m (set_column df c v).
Proof.
  intros (Hne & Hn & H0) Hv. split; [apply set_column_nonempty|].
  split; [|done]. rewrite nrows_set_column; [done|]. intros _. congruence.
Qed.

Lemma nrows_adopt_index m df :
  df ≠ [] → nrows (adopt_index m df) = rows_after m df.
Proof.
  intros Hne. unfold adopt_index, rows_after.
  case_bool_decide as H1.
  - destruct H1 as [H1 ?]. rewrite bool_decide_true by done.
    destruct df as [|[n s] df]; [done|]. simpl. apply length_reindex.
  - case_bool_decide as H2; [|done]. lia.
Qed.

Lemma rows_after_0 m df : rows_after m df = 0 → m = 0.
Proof. unfold rows_after. case_bool_decide; lia. Qed.

Lemma setitem_first df c s :
  setitem df c s
  = set_column (adopt_index (length s) df) c
               (reindex (rows_after (length s) df) s)
  ∧ settled (rows_after (length s) df) (length s) (setitem df c s).
Proof.
  split; [done|]. unfold setitem, ensure_valid_index, index_len.
  split; [apply set_column_nonempty|]. split; [|apply rows_after_0].
  rewrite nrows_set_column; rewrite length_reindex; [done|].
  intros Hne. apply nrows_adopt_index. intros ->. apply Hne.
  unfold adopt_index. by case_bool_decide.
Qed.

Lemma assign_cons v df c cols :
  assign v df (c :: cols) = assign v (set_column df c (v c)) cols.
Proof. done. Qed.

Lemma getitem_assign_out v df cols c :
  c ∉ cols → getitem (assign v df cols) c = getitem df c.
Proof.
  revert df. induction cols as [|c0 cols IH]; intros df Hc; [done|].
  apply not_elem_of_cons in Hc as [? ?].
  rewrite assign_cons, IH by done. by apply getitem_set_column_ne.
Qed.

Lemma getitem_assign_in v df cols c :
  c ∈ cols → getitem (assign v df cols) c = Ok (v c).
Proof.
  revert df. induction cols as [|c0 cols IH]; intros df Hc.
  - by apply elem_of_nil in Hc.
  - rewrite assign_cons. destruct (decide (c ∈ cols)) as [|Hout]; [by apply IH|].
    apply elem_of_cons in Hc as [->|?]; [|done].
    rewrite getitem_assign_out by done. apply getitem_set_column_eq.
Qed.

Lemma lookup_assign_out v df cols (i : nat) (col : string * Series V) :
  df !! i = Some col → col.1 ∉ cols → assign v df cols !! i = Some col.
Proof.
  revert df. induction cols as [|c0 cols IH]; intros df Hi Hc; [done|].
  apply not_elem_of_cons in Hc as [? ?].
  rewrite assign_cons. apply IH; [|done]. by apply lookup_set_column_ne.
Qed.

Lemma columns_assign_subset v df cols c :
  c ∈ columns df → c ∈ columns (assign v df cols).
Proof.
  revert df. induction cols as [|c0 cols IH]; intros df Hc; [done|].
  rewrite assign_cons. apply IH. rewrite columns_set_column.
  destruct (contains df c0); [done|]. apply elem_of_app. by left.
Qed.

Lemma settled_assign n m v df cols :
  settled n m df → (∀ c, c ∈ cols → length (v c) = n) →
  settled n m (assign v df cols).
Proof.
  revert df. induction cols as [|c0 cols IH]; intros df Hs Hv; [done|].
  rewrite assign_cons. apply IH.
  - apply settled_set_column; [done|]. apply Hv. left.
  - intros c Hc. apply Hv. by right.
Qed.

Lemma nrows_assign n m v df cols :
  settled n m df → (∀ c, c ∈ cols → length (v c) = n) →
  nrows (assign v df cols) = n.
Proof. intros Hs Hv. by destruct (settled_assign n m v df cols Hs Hv) as (_ & ? & _). Qed.

End settled.

(** * The column loops of test.py in closed form *)

Section column_loops.
Context {V : Type}.
Import TestPy.
Implicit Types (df src tgt : DataFrame V) (s : Series V) (c : string)
  (cols : list string).

Lemma supplies_cons m df c cols :
  supplies m df (c :: cols) →
  (∃ s, getitem df c = Ok s ∧ length s = m ∧ column df c = s)
  ∧ supplies m df cols.
Proof.
  intros H. split.
  - destruct (H c) as (s & Hs & Hl); [left|]. exists s.
    split_and!; [done..|]. unfold column. by rewrite Hs.
  - intros c' Hc'. apply H. by right.
Qed.

Lemma wf_frame_supplies df cols :
  wf_frame df → cols ⊆ columns df → supplies (nrows df) df cols.
Proof.
  intros [_ Hlen] Hsub c Hc. destruct (getitem_elem df c (Hsub _ Hc))
    as (s & Hs & Hin). exists s. split; [done|].
  rewrite Forall_forall in Hlen. apply (Hlen _ Hin).
Qed.

Lemma replace_columns_settled n m tgt src cols :
  settled n m tgt → supplies m src cols →
  replace_columns tgt src cols
  = Ok (assign (λ c, reindex n (column src c)) tgt cols).
Proof.
  revert tgt. induction cols as [|c cols IH]; intros tgt Hs Hsup; [done|].
  apply supplies_cons in Hsup as [(s & Hg & Hl & Hc) Hsup].
  rewrite assign_cons, Hc.
  simpl. rewrite Hg. simpl. rewrite (setitem_settled n m) by done.
  by rewrite IH; [|by apply settled_set_column, length_reindex|done].
Qed.

Lemma replace_columns_closed m tgt src cols :
  cols ≠ [] → supplies m src cols →
  replace_columns tgt src cols
  = Ok (assign (λ c, reindex (rows_after m tgt) (column src c))
               (adopt_index m tgt) cols).
Proof.
  destruct cols as [|c cols]; [done|]. intros _ Hsup.
  apply supplies_cons in Hsup as [(s & Hg & Hl & Hc) Hsup].
  rewrite assign_cons, Hc.
  simpl. rewrite Hg. simpl.
  destruct (setitem_first tgt c s) as [Heq Hset]. rewrite Hl in Heq, Hset.
  rewrite (replace_columns_settled _ _ _ _ _ Hset Hsup).
  by rewrite Heq.
Qed.

Lemma replace_columns_raises tgt src cols c :
  c ∈ cols → c ∉ columns src → raises (replace_columns tgt src cols).
Proof.
  revert tgt. induction cols as [|c0 cols IH]; intros tgt Hc Hout.
  - by apply elem_of_nil in Hc.
  - simpl. destruct (getitem src c0) as [s|e] eqn:Hg; simpl; [|done].
    apply elem_of_cons in Hc as [->|Hc]; [|by apply IH].
    by apply getitem_Ok_columns in Hg.
Qed.

Lemma add_columns_replace tgt src cols :
  add_columns src tgt cols = replace_columns tgt src cols.
Proof.
  revert tgt. induction cols as [|c cols IH]; intros tgt; [done|].
  simpl. destruct (getitem src c); simpl; [apply IH | done].
Qed.

Lemma insert_settled n m df c s :
  settled n m df → length s = m → c ∉ columns df →
  insert df 0 c s = Ok ((c, reindex n s) :: df).
Proof.
  intros (Hne & Hn & H0) Hs Hc. unfold insert.
  apply contains_false in Hc. rewrite Hc.
  rewrite decide_True by lia. rewrite take_0, drop_0. simpl.
  unfold ensure_valid_index, index_len, adopt_index, rows_after.
  rewrite Hs, Hn.
  rewrite (bool_decide_false (n = 0 ∧ 0 < m)) by (intros [? ?]; lia).
  case_bool_decide as H2; [|done].
  assert (m = n) as -> by (rewrite H2; auto). done.
Qed.

Lemma insert_first df c s :
  c ∉ columns df →
  insert df 0 c s
  = Ok ((c, reindex (rows_after (length s) df) s)
        :: adopt_index (length s) df)
  ∧ settled (rows_after (length s) df) (length s)
      ((c, reindex (rows_after (length s) df) s)
       :: adopt_index (length s) df).
Proof.
  intros Hc. split.
  - unfold insert. apply contains_false in Hc. rewrite Hc.
    rewrite decide_True by lia. by rewrite take_0, drop_0.
  - split; [done|]. split; [apply length_reindex | apply rows_after_0].
Qed.

Lemma columns_adopt_index m df : columns (adopt_index m df) = columns df.
Proof.
  unfold adopt_index, columns. case_bool_decide; [|done].
  rewrite <- list_fmap_compose. apply list_fmap_ext. by intros i [n s] _.
Qed.

Lemma insert_columns_settled n m tgt src cols :
  settled n m tgt → NoDup cols → (∀ c, c ∈ cols → c ∉ columns tgt) →
  supplies m src cols →
  insert_columns src tgt cols = Ok (inserted n src cols ++ tgt).
Proof.
  revert tgt. induction cols as [|c cols IH]; intros tgt Hs Hnd Hout Hsup.
  - done.
  - apply supplies_cons in Hsup as [(s & Hg & Hl & Hc) Hsup].
    apply NoDup_cons in Hnd as [Hc' Hnd].
    simpl. rewrite Hg. simpl.
    rewrite (insert_settled n m) by (try done; apply Hout; left). simpl.
    rewrite IH; try done.
    + unfold inserted. rewrite fmap_cons, reverse_cons, <- app_assoc.
      simpl. by rewrite Hc.
    + destruct Hs as (_ & ? & ?). split; [done|]. split; [|done].
      apply length_reindex.
    + intros c0 Hc0. apply not_elem_of_cons. split.
      * intros ->. done.
      * apply Hout. by right.
Qed.

Lemma insert_columns_closed m tgt src cols :
  cols ≠ [] → NoDup cols → (∀ c, c ∈ cols → c ∉ columns tgt) →
  supplies m src cols →
  insert_columns src tgt cols
  = Ok (inserted (rows_after m tgt) src cols ++ adopt_index m tgt).
Proof.
  destruct cols as [|c cols]; [done|]. intros _ Hnd Hout Hsup.
  apply supplies_cons in Hsup as [(s & Hg & Hl & Hc) Hsup].
  apply NoDup_cons in Hnd as [Hc' Hnd].
  simpl. rewrite Hg. simpl.
  destruct (insert_first tgt c s) as [Heq Hset]; [apply Hout; left|].
  rewrite Hl in Heq, Hset. rewrite Heq. simpl.
  rewrite (insert_columns_settled _ _ _ _ _ Hset); try done.
  - unfold inserted. rewrite fmap_cons, reverse_cons, <- app_assoc.
    simpl. by rewrite Hc.
  - intros c0 Hc0. apply not_elem_of_cons. split.
    + intros ->. done.
    + rewrite columns_adopt_index. apply Hout. by right.
Qed.

End column_loops.

(** * Facts about runs *)

Section run_facts.
Context {F : Type}.
Implicit Types (r k : run F) (e : event F) (t : list (event F)).

Lemma writes_app t t' : writes (t ++ t') = writes t ++ writes t'.
Proof. apply omap_app. Qed.

Lemma prints_app t t' : prints (t ++ t') = prints t ++ prints t'.
Proof. apply omap_app. Qed.



Lemma writes_cons_Wrote p (c : F) t : writes (Wrote p c :: t) = (p, c) :: writes t.
Proof. done. Qed.


Lemma prints_cons_Wrote p (c : F) t : prints (Wrote p c :: t) = prints t.
Proof. done. Qed.


Lemma raised_and_then_print r line :
  raised (and_then r (Run [Printed line] None)) = raised r.
Proof. unfold and_then. by destruct (raised r) eqn:E. Qed.

Lemma written_and_then_print r line :
  written (and_then r (Run [Printed line] None)) = written r.
Proof.
  unfold and_then, written. destruct (raised r); [done|]. simpl.
  rewrite writes_app. apply app_nil_r.
Qed.

Lemma console_and_then_print r line :
  raised r = None →
  console (and_then r (Run [Printed line] None)) = console r ++ [line].
Proof.
  intros E. unfold and_then, console. rewrite E. simpl. by rewrite prints_app.
Qed.


End run_facts.

(** * Cells and sums *)

Section cell_facts.
Import DataProcessing.
Context {np : numerics}.
Implicit Types (s : Series value) (zs : list Z) (z : Z).

Lemma wrap64_range z : (- 2 ^ 63 ≤ wrap64 z < 2 ^ 63)%Z.
Proof.
  unfold wrap64.
  pose proof (Z.mod_pos_bound (z + 2 ^ 63) (2 ^ 64) eq_refl). lia.
Qed.

Lemma wrap64_small z : (- 2 ^ 63 ≤ z < 2 ^ 63)%Z → wrap64 z = z.
Proof. intros Hz. unfold wrap64. rewrite Z.mod_small; lia. Qed.

Lemma wrap64_congr a b :
  (a `mod` 2 ^ 64 = b `mod` 2 ^ 64)%Z → wrap64 a = wrap64 b.
Proof.
  intros Hab. unfold wrap64.
  rewrite <- (Zplus_mod_idemp_l a), <- (Zplus_mod_idemp_l b). by rewrite Hab.
Qed.

Lemma wrap64_mod z : (wrap64 z `mod` 2 ^ 64 = z `mod` 2 ^ 64)%Z.
Proof.
  unfold wrap64. rewrite Zminus_mod_idemp_l. f_equal. lia.
Qed.

Lemma wrap64_add_l a b : wrap64 (wrap64 a + b) = wrap64 (a + b).
Proof.
  apply wrap64_congr.
  rewrite <- (Zplus_mod_idemp_l (wrap64 a)), wrap64_mod.
  by rewrite Zplus_mod_idemp_l.
Qed.

Lemma wrap64_add_l2 a b c : wrap64 (wrap64 a + b + c) = wrap64 (a + b + c).
Proof. rewrite <- !Z.add_assoc. apply wrap64_add_l. Qed.

Lemma wrap64_add_l3 a b c d :
  wrap64 (wrap64 a + b + c + d) = wrap64 (a + b + c + d).
Proof. rewrite <- !Z.add_assoc. apply wrap64_add_l. Qed.

Lemma wrap64_add_r a b : wrap64 (a + wrap64 b) = wrap64 (a + b).
Proof. by rewrite (Z.add_comm a), wrap64_add_l, (Z.add_comm b). Qed.

Lemma is_int_not_text (c : option value) : is_int c → ¬ is_text c.
Proof. destruct c as [[]|]; simpl; tauto. Qed.

Lemma whole_numeric s : whole s → numeric s.
Proof. intros Hs. eapply Forall_impl; [exact Hs|]. apply is_int_not_text. Qed.

Lemma numeric_no_text s : numeric s → existsb is_text s = false.
Proof.
  intros Hs. apply Is_true_false_1. rewrite existb_True.
  by apply Forall_not_Exists.
Qed.

Lemma whole_all_int s : whole s → forallb is_int s = true.
Proof. intros Hs. by apply Is_true_true_1, forallb_True. Qed.

Lemma whole_ints zs : whole (ints zs).
Proof. unfold whole, ints. apply Forall_fmap, Forall_forall. done. Qed.


Lemma dtype_of_whole s : whole s → dtype_of s = int64.
Proof.
  intros Hs. unfold dtype_of.
  by rewrite (numeric_no_text s (whole_numeric s Hs)), whole_all_int.
Qed.

Lemma series_sum_whole s :
  whole s → series_sum s = Ok (Num (wrap64 (sum_Z (int_of <$> s)))).
Proof. intros Hs. unfold series_sum. by rewrite dtype_of_whole. Qed.


Lemma summable_sum s : summable s → series_sum s = Ok (total s).
Proof.
  intros Hs. unfold total.
  destruct (series_sum s) as [v|e] eqn:E; [done|]. exfalso.
  unfold series_sum, dtype_of in E.
  destruct (existsb is_text s) eqn:Ht.
  - apply Is_true_true_2, existb_True, Hs, forallb_True, Is_true_true_1 in Ht.
    by rewrite Ht in E.
  - by destruct (forallb is_int s).
Qed.


Lemma whole_summable s : whole s → summable s.
Proof.
  intros Hs Hex. destruct (Forall_not_Exists _ _ (whole_numeric s Hs) Hex).
Qed.

End cell_facts.

(** * The column-sum aggregator *)

Section aggregator_facts.
Import DataProcessing.
Context {np : numerics}.
Implicit Types (sheet_df : DataFrame value)
  (sheets : list (string * DataFrame value))
  (files listing : list (string * workbook)).

Lemma bind_Ok {A B} (x : A) (f : A → result B) : Ok x ≫= f = f x.
Proof. done. Qed.

Lemma has_columns_targets sheet_df :
  has_columns sheet_df = true ↔ has_targets sheet_df.
Proof.
  unfold has_columns, has_targets.
  rewrite forallb_forall, Forall_forall. split; intros H c Hc.
  - by apply contains_true, H, list_elem_of_In.
  - by apply contains_true, H, list_elem_of_In.
Qed.

Lemma has_columns_getitem sheet_df c :
  has_targets sheet_df → c ∈ columns_to_sum →
  getitem sheet_df c = Ok (column sheet_df c).
Proof.
  unfold has_targets. rewrite Forall_forall. intros H Hc.
  apply H, getitem_elem in Hc as (s & Hs & _).
  unfold column. by rewrite Hs.
Qed.

Lemma sum_columns_cons sheet_df col rest (acc : row) :
  sum_columns sheet_df (col :: rest) acc
  = (s ← getitem sheet_df col;
     total ← series_sum s;
     sum_columns sheet_df rest (<[col := total]> acc)).
Proof. done. Qed.

Lemma sum_data_complete sheet_name sheet_df :
  has_targets sheet_df →
  (∀ c, c ∈ columns_to_sum → summable (column sheet_df c)) →
  sum_data sheet_name sheet_df = Ok (sheet_sums sheet_name sheet_df).
Proof.
  intros H Hs.
  assert (∀ c rest acc, c ∈ columns_to_sum →
            sum_columns sheet_df (c :: rest) acc
            = sum_columns sheet_df rest
                (<[c := total (column sheet_df c)]> acc)) as Hstep.
  { intros c rest acc Hc.
    by rewrite sum_columns_cons, (has_columns_getitem _ _ H Hc), bind_Ok,
      (summable_sum _ (Hs c Hc)), bind_Ok. }
  unfold sum_data, sheet_sums, columns_to_sum in *.
  rewrite !Hstep by (apply list_elem_of_In; simpl; tauto). done.
Qed.


Lemma sums_defined_cons sheet_name sheet_df sheets :
  sums_defined ((sheet_name, sheet_df) :: sheets) →
  (has_targets sheet_df →
   ∀ c, c ∈ columns_to_sum → summable (column sheet_df c))
  ∧ sums_defined sheets.
Proof.
  intros H. split.
  - intros Ht c Hc. apply (H sheet_name sheet_df c); [left|done..].
  - intros n df c Hin. apply (H n df c). by right.
Qed.

Lemma sum_sheets_closed excel_file sheets result_df :
  sums_defined sheets →
  sum_sheets excel_file sheets result_df
  = ((λ sh, skip_notice sh.1 excel_file) <$> incomplete sheets,
     Ok (result_df ++ ((λ sh, sheet_sums sh.1 sh.2) <$> complete sheets))).
Proof.
  revert result_df.
  induction sheets as [|[name df] sheets IH]; intros result_df Hs; simpl.
  - by rewrite app_nil_r.
  - apply sums_defined_cons in Hs as [Hdf Hs].
    unfold complete, incomplete. rewrite !filter_cons. simpl.
    destruct (has_columns df) eqn:E; simpl.
    + apply has_columns_targets in E.
      rewrite (sum_data_complete _ _ E (Hdf E)), IH by done.
      destruct (decide (¬ has_targets df)) as [?|_]; [tauto|].
      destruct (decide (has_targets df)) as [_|?]; [|tauto].
      unfold append. rewrite fmap_cons. by rewrite <- app_assoc.
    + assert (¬ has_targets df) as E'.
      { rewrite <- has_columns_targets. by rewrite E. }
      rewrite IH by done.
      destruct (decide (¬ has_targets df)) as [_|?]; [|tauto].
      by destruct (decide (has_targets df)) as [?|_]; [tauto|].
Qed.



Lemma aggregate_loop_Sheets excel_file sheets files :
  sums_defined sheets →
  aggregate_loop ((excel_file, Sheets sheets) :: files)
  = Run ((Printed <$> ((λ sh, skip_notice sh.1 excel_file) <$> incomplete sheets))
         ++ [Wrote (output_csv_path excel_file)
               (SumRows ((λ sh, sheet_sums sh.1 sh.2) <$> complete sheets));
             Printed (written_notice excel_file)]
         ++ trace (aggregate_loop files))
        (raised (aggregate_loop files)).
Proof.
  intros Hs. simpl. rewrite sum_sheets_closed by done.
  unfold and_then. simpl. by rewrite <- app_assoc.
Qed.








(** C8: a spreadsheet whose only sheet, S1, holds FAR_WEST=[1,2],
    NORTH=[3,4], WEST=[5,6] gives exactly one output row, with FAR_WEST=3,
    NORTH=7, WEST=11 and Sheet=S1. *)
Theorem aggregator_scenario excel_file :
  is_excel excel_file = true →
  aggregate_job [(excel_file, Sheets [("S1", scenario)])]
  = Run [ Wrote (output_csv_path excel_file)
            (SumRows [ {[ "FAR_WEST" := Num 3; "NORTH" := Num 7;
                          "WEST" := Num 11; "Sheet" := Str "S1" ]} ]);
          Printed (written_notice excel_file);
          Printed "Processing complete." ] None.
Proof.
  intros Hx. unfold aggregate_job, excel_files.
  rewrite filter_cons_True by (simpl; by rewrite Hx). rewrite filter_nil.
  rewrite aggregate_loop_Sheets.
  - reflexivity.
  - intros name df c Hin _ Hc. apply list_elem_of_singleton in Hin.
    inversion Hin; subst. apply whole_summable.
    repeat (apply elem_of_cons in Hc as [->|Hc]);
      [apply (whole_ints [1; 2]%Z) | apply (whole_ints [3; 4]%Z)
      | apply (whole_ints [5; 6]%Z) | by apply elem_of_nil in Hc].
Qed.

(** C9: a sheet that has the columns to sum and no rows gives a row whose
    sums are all zero; nothing is raised. *)
Theorem aggregator_empty_sheet excel_file sheet_name sheet_df :
  wf_frame sheet_df → has_columns sheet_df = true → nrows sheet_df = 0 →
  sum_sheets excel_file [(sheet_name, sheet_df)] []
  = ([], Ok [ {[ "FAR_WEST" := Num 0; "NORTH" := Num 0; "WEST" := Num 0;
                 "Sheet" := Str sheet_name ]} ]).
Proof.
  intros [_ Hlen] Hc H0. apply has_columns_targets in Hc.
  assert (∀ c, c ∈ columns_to_sum → column sheet_df c = []) as Hempty.
  { intros c Hin. pose proof (has_columns_getitem _ _ Hc Hin) as Hg.
    apply getitem_Ok_elem in Hg. rewrite Forall_forall in Hlen.
    apply Hlen in Hg. simpl in Hg. rewrite H0 in Hg.
    by apply nil_length_inv. }
  rewrite sum_sheets_closed.
  - unfold incomplete, complete.
    rewrite filter_cons_False, filter_cons_True; simpl; [|done|by auto].
    unfold sheet_sums, columns_to_sum. simpl.
    rewrite !Hempty by (unfold columns_to_sum; set_solver).
    reflexivity.
  - intros name df c Hin _ Hcol. apply list_elem_of_singleton in Hin.
    inversion Hin; subst. rewrite (Hempty c Hcol). by intros ?%Exists_nil.
Qed.

End aggregator_facts.




Lemma aggregator_scenario_witness :
  written (DataProcessing.aggregate_job
             [("load.xlsx", DataProcessing.Sheets [("S1", scenario)])])
  = [ ("Load_data/load_sum.csv",
       DataProcessing.SumRows
         [ {[ "FAR_WEST" := DataProcessing.Num 3;
              "NORTH" := DataProcessing.Num 7;
              "WEST" := DataProcessing.Num 11;
              "Sheet" := DataProcessing.Str "S1" ]} ]) ].
Proof.
  rewrite (aggregator_scenario "load.xlsx"); [|vm_compute; reflexivity].
  vm_compute. reflexivity.
Defined.

Lemma aggregator_empty_sheet_witness :
  DataProcessing.sum_sheets "load.xlsx"
    [("S1", [("FAR_WEST", []); ("NORTH", []); ("WEST", []); ("COAST", [])])] []
  = ([], Ok [ {[ "FAR_WEST" := DataProcessing.Num 0;
                 "NORTH" := DataProcessing.Num 0;
                 "WEST" := DataProcessing.Num 0;
                 "Sheet" := DataProcessing.Str "S1" ]} ]).
Proof.
  apply aggregator_empty_sheet.
  - split.
    + apply (bool_decide_unpack _). vm_compute. exact I.
    + repeat constructor.
  - vm_compute. reflexivity.
  - reflexivity.
Defined.

(** * Row-wise summation and the end of the script *)

Section total_facts.
Import DataProcessing.
Context {np : numerics}.
Implicit Types (df : DataFrame value) (a b : Series value).

Lemma setitem_same_length {V} (df : DataFrame V) c (s : Series V) :
  length s = nrows df → setitem df c s = set_column df c s.
Proof.
  intros Hl.
  unfold setitem, ensure_valid_index, index_len, adopt_index, rows_after.
  rewrite bool_decide_false by lia.
  case_bool_decide as H0.
  - by rewrite reindex_id.
  - by rewrite <- Hl, reindex_id.
Qed.

Lemma wf_frame_column {V} (df : DataFrame V) c :
  wf_frame df → c ∈ columns df →
  getitem df c = Ok (column df c) ∧ length (column df c) = nrows df.
Proof.
  intros [_ Hlen] Hc. destruct (getitem_elem df c Hc) as (s & Hs & Hin).
  unfold column. rewrite Hs. split; [done|].
  rewrite Forall_forall in Hlen. apply (Hlen _ Hin).
Qed.

Lemma length_sum_axis1 (sub : DataFrame value) :
  length (sum_axis1 sub) = nrows sub.
Proof. unfold sum_axis1. by rewrite length_fmap, length_seq. Qed.

(** The array of two columns: of whole numbers, or of floats. *)
Lemma frame_dtype_whole c1 c2 a b :
  whole a → whole b → frame_dtype [(c1, a); (c2, b)] = int64.
Proof.
  intros Ha Hb. unfold frame_dtype. simpl.
  rewrite !numeric_no_text by by apply whole_numeric.
  by rewrite !whole_all_int.
Qed.

Lemma frame_dtype_float c1 c2 a b :
  numeric a → numeric b → ¬ (whole a ∧ whole b) →
  frame_dtype [(c1, a); (c2, b)] = float64.
Proof.
  intros Ha Hb Hw. unfold frame_dtype. simpl.
  rewrite !numeric_no_text by done. simpl.
  destruct (forallb is_int a) eqn:Ea; [|done].
  destruct (forallb is_int b) eqn:Eb; [|done].
  destruct Hw. split; by apply forallb_True, Is_true_true_2.
Qed.

Lemma lookup_sum_axis1_pair c1 c2 a b (i : nat) :
  i < length a →
  sum_axis1 [(c1, a); (c2, b)] !! i
  = Some (match frame_dtype [(c1, a); (c2, b)] with
          | int64 =>
              Some (Int (wrap64 (int_of (mjoin (a !! i))
                                 + int_of (mjoin (b !! i)))))
          | float64 =>
              float_cell (np_sum [float_or_zero (mjoin (a !! i));
                                  float_or_zero (mjoin (b !! i))])
          | object => object_row_sum [(c1, a); (c2, b)] i
          end).
Proof.
  intros Hi. unfold sum_axis1. rewrite list_lookup_fmap.
  simpl nrows. rewrite lookup_seq_lt by done. simpl.
  by rewrite Z.add_0_r.
Qed.

(** C5 (amended): on a table that has Column1 and Column2 the job stores in
    column Total, row by row, the sum of the two cells of that row as
    pandas takes it: when both columns hold whole numbers only, their sum
    in int64, which is their sum when that lies between -2^63 and 2^63 - 1
    and wraps around otherwise; when neither holds text and a cell is
    missing or has a fraction, the float64 sum of the two cells, a missing
    cell counting as zero.  Total is added as the last column when the
    table has none and replaces the values of an existing Total column
    where it stands; every other column keeps its values and its place. *)
Theorem add_total_row_sums df :
  wf_frame df → "Column1" ∈ columns df → "Column2" ∈ columns df →
  ∃ out total,
    add_total df = Ok out
    ∧ columns out
      = (if contains df "Total" then columns df else columns df ++ ["Total"])
    ∧ getitem out "Total" = Ok total
    ∧ length total = nrows df
    ∧ (whole (column df "Column1") → whole (column df "Column2") →
       ∀ i x y,
         column df "Column1" !! i = Some (Some (Int x)) →
         column df "Column2" !! i = Some (Some (Int y)) →
         total !! i = Some (Some (Int (wrap64 (x + y))))
         ∧ ((- 2 ^ 63 ≤ x + y < 2 ^ 63)%Z →
            total !! i = Some (Some (Int (x + y)))))
    ∧ (numeric (column df "Column1") → numeric (column df "Column2") →
       ¬ (whole (column df "Column1") ∧ whole (column df "Column2")) →
       ∀ i x y,
         column df "Column1" !! i = Some x →
         column df "Column2" !! i = Some y →
         ∃ f, total !! i = Some (float_cell f)
              ∧ same_float f (float_or_zero x + float_or_zero y)%float = true)
    ∧ (∀ c, c ≠ "Total" → getitem out c = getitem df c)
    ∧ (∀ (i : nat) col, df !! i = Some col → col.1 ≠ "Total" →
         out !! i = Some col).
Proof.
  intros Hwf H1 H2.
  destruct (wf_frame_column df _ Hwf H1) as [Hg1 Hl1].
  destruct (wf_frame_column df _ Hwf H2) as [Hg2 Hl2].
  set (a := column df "Column1") in *. set (b := column df "Column2") in *.
  set (total := sum_axis1 [("Column1", a); ("Column2", b)]).
  assert (length total = nrows df) as Hlt.
  { unfold total. by rewrite length_sum_axis1. }
  exists (set_column df "Total" total), total. split_and!.
  - unfold add_total, total_columns. simpl. rewrite Hg1, Hg2. simpl.
    by rewrite setitem_same_length.
  - apply columns_set_column.
  - apply getitem_set_column_eq.
  - done.
  - intros Ha Hb i x y Hx Hy.
    assert (total !! i = Some (Some (Int (wrap64 (x + y))))) as Hi.
    { unfold total. rewrite lookup_sum_axis1_pair
        by (by apply lookup_lt_Some in Hx).
      by rewrite frame_dtype_whole, Hx, Hy. }
    split; [done|]. intros Hr. by rewrite Hi, wrap64_small.
  - intros Ha Hb Hw i x y Hx Hy.
    exists (np_sum [float_or_zero x; float_or_zero y]). split.
    + unfold total. rewrite lookup_sum_axis1_pair
        by (by apply lookup_lt_Some in Hx).
      by rewrite frame_dtype_float, Hx, Hy.
    + apply np_sum_pair.
  - intros c Hc. by apply getitem_set_column_ne.
  - intros i col Hi Hc. by apply lookup_set_column_ne.
Qed.

(** C4 fails for the script that ends with the concatenation: with both
    directories empty the aggregator prints its message and the
    concatenation then raises. *)
Lemma empty_directory_concat_raises :
  total_job [] = Run [] (Some (ValueError "No objects to concatenate"))
  ∧ script [] []
    = Run [Printed "Processing complete."]
          (Some (ValueError "No objects to concatenate"))
  ∧ ¬ (raised (script [] []) = None).
Proof. split_and!; [reflexivity | reflexivity | discriminate]. Qed.

End total_facts.

(** C5, as stated, fails on a table that already has a Total column: no
    column is added, and that column's values are replaced. *)
Lemma add_total_overwrites_total :
  (∀ np : DataProcessing.numerics,
     DataProcessing.add_total table_with_total
     = Ok [ ("Column1", [Some (DataProcessing.Int 1)]);
            ("Column2", [Some (DataProcessing.Int 2)]);
            ("Total", [Some (DataProcessing.Int 3)]) ])
  ∧ (∀ np : DataProcessing.numerics,
       ¬ (∀ out, DataProcessing.add_total table_with_total = Ok out →
            length out = S (length table_with_total)
            ∧ ∀ c, c ∈ columns table_with_total →
                getitem out c = getitem table_with_total c)).
Proof.
  split; intros np; [reflexivity|]. intros H.
  destruct (H _ eq_refl) as [Hlen _]. discriminate.
Qed.

Lemma wf_table_with_total : wf_frame table_with_total.
Proof.
  split.
  - apply (bool_decide_unpack _). vm_compute. exact I.
  - repeat constructor.
Qed.

Lemma wf_table_without_total : wf_frame table_without_total.
Proof.
  split.
  - apply (bool_decide_unpack _). vm_compute. exact I.
  - repeat constructor.
Qed.

Lemma wf_large_table : wf_frame large_table.
Proof.
  split.
  - apply (bool_decide_unpack _). vm_compute. exact I.
  - repeat constructor.
Qed.

Lemma wf_fraction_table : wf_frame fraction_table.
Proof.
  split.
  - apply (bool_decide_unpack _). vm_compute. exact I.
  - repeat constructor.
Qed.

Lemma add_total_row_sums_witness :
  (∃ out total,
     DataProcessing.add_total table_with_total = Ok out
     ∧ columns out = ["Column1"; "Column2"; "Total"]
     ∧ getitem out "Total" = Ok total
     ∧ total !! 0 = Some (Some (DataProcessing.Int 3)))
  ∧ (∃ out total f,
       DataProcessing.add_total table_without_total = Ok out
       ∧ columns out = ["Hour"; "Column1"; "Column2"; "Total"]
       ∧ getitem out "Total" = Ok total
       ∧ total !! 1 = Some (DataProcessing.float_cell f)
       ∧ DataProcessing.same_float f 7 = true)
  ∧ (∃ out total,
       DataProcessing.add_total large_table = Ok out
       ∧ getitem out "Total" = Ok total
       ∧ total !! 0 = Some (Some (DataProcessing.Int (- 2 ^ 63))))
  ∧ (∃ out total f,
       DataProcessing.add_total fraction_table = Ok out
       ∧ getitem out "Total" = Ok total
       ∧ total !! 0 = Some (DataProcessing.float_cell f)
       ∧ DataProcessing.same_float f 3.75 = true).
Proof.
  split_and!.
  - destruct (add_total_row_sums table_with_total wf_table_with_total)
      as (out & total & Ho & Hc & Hg & _ & Hint & _).
    + apply list_elem_of_In. vm_compute. left. reflexivity.
    + apply list_elem_of_In. vm_compute. right. left. reflexivity.
    + exists out, total. split_and!; [exact Ho | exact Hc | exact Hg |].
      apply (Hint (whole_ints [1%Z]) (whole_ints [2%Z]) 0 1%Z 2%Z);
        [reflexivity | reflexivity |].
      vm_compute. split; [discriminate | reflexivity].
  - destruct (add_total_row_sums table_without_total wf_table_without_total)
      as (out & total & Ho & Hc & Hg & _ & _ & Hfloat & _).
    + apply list_elem_of_In. vm_compute. right. left. reflexivity.
    + apply list_elem_of_In. vm_compute. right. right. left. reflexivity.
    + destruct (Hfloat) with (i := 1) (x := @None DataProcessing.value)
        (y := Some (DataProcessing.Int 7)) as (f & Hf & Hs).
      * apply (bool_decide_unpack _). vm_compute. exact I.
      * apply (bool_decide_unpack _). vm_compute. exact I.
      * apply (bool_decide_unpack _). vm_compute. exact I.
      * reflexivity.
      * reflexivity.
      * exists out, total, f. split_and!;
          [exact Ho | exact Hc | exact Hg | exact Hf | exact Hs].
  - destruct (add_total_row_sums large_table wf_large_table)
      as (out & total & Ho & _ & Hg & _ & Hint & _).
    + apply list_elem_of_In. vm_compute. left. reflexivity.
    + apply list_elem_of_In. vm_compute. right. left. reflexivity.
    + exists out, total. split_and!; [exact Ho | exact Hg |].
      apply (Hint (whole_ints [2 ^ 62]%Z) (whole_ints [2 ^ 62]%Z) 0
               (2 ^ 62)%Z (2 ^ 62)%Z); reflexivity.
  - destruct (add_total_row_sums fraction_table wf_fraction_table)
      as (out & total & Ho & _ & Hg & _ & _ & Hfloat & _).
    + apply list_elem_of_In. vm_compute. left. reflexivity.
    + apply list_elem_of_In. vm_compute. right. left. reflexivity.
    + destruct (Hfloat) with (i := 0)
        (x := Some (DataProcessing.Flt 1.5))
        (y := Some (DataProcessing.Flt 2.25)) as (f & Hf & Hs).
      * apply (bool_decide_unpack _). vm_compute. exact I.
      * apply (bool_decide_unpack _). vm_compute. exact I.
      * apply (bool_decide_unpack _). vm_compute. exact I.
      * reflexivity.
      * reflexivity.
      * exists out, total, f. split_and!;
          [exact Ho | exact Hg | exact Hf | exact Hs].
Defined.

(** * The column renamer *)

Section renamer_facts.
Context {V : Type}.
Import TestPy.
Implicit Types (df : DataFrame V) (listing : list (string * DataFrame V)).

Lemma rename_values_not_keys :
  Forall (λ kv, columns_to_rename !! kv.2 = None) rename_pairs.
Proof. refine (bool_decide_unpack _ _). vm_compute. exact I. Qed.

Lemma rename_label_idempotent c :
  rename_label columns_to_rename (rename_label columns_to_rename c)
  = rename_label columns_to_rename c.
Proof.
  unfold rename_label at 2 3.
  destruct (columns_to_rename !! c) as [new|] eqn:E; simpl.
  - apply elem_of_list_to_map_2 in E.
    pose proof rename_values_not_keys as Hnk. rewrite Forall_forall in Hnk.
    apply Hnk in E. simpl in E. unfold rename_label. by rewrite E.
  - unfold rename_label. by rewrite E.
Qed.

Lemma rename_unlisted (mapping : gmap string string) df :
  (∀ old, is_Some (mapping !! old) → old ∉ columns df) →
  rename mapping df = df.
Proof.
  intros H. unfold rename. rewrite <- (list_fmap_id df) at 2.
  apply list_fmap_ext. intros i [c s] Hi. unfold prod_map, rename_label.
  simpl. destruct (mapping !! c) as [new|] eqn:E; [|done].
  exfalso. apply (H c); [by eexists|].
  apply list_elem_of_fmap. exists (c, s). split; [done|].
  by eapply list_elem_of_lookup_2.
Qed.

Lemma rename_absent_key (mapping : gmap string string) df old :
  old ∉ columns df → rename mapping df = rename (delete old mapping) df.
Proof.
  intros H. unfold rename. apply list_fmap_ext. intros i [c s] Hi.
  unfold prod_map, rename_label. simpl.
  rewrite lookup_delete_ne; [done|]. intros ->. apply H.
  apply list_elem_of_fmap. exists (c, s). split; [done|].
  by eapply list_elem_of_lookup_2.
Qed.

Lemma rename_loop_raised folder_path listing :
  raised (rename_loop folder_path listing) = None.
Proof.
  induction listing as [|[f df] listing IH]; [done|]. simpl.
  by destruct (endswith f ".csv").
Qed.

(** C7: renaming the columns of a table twice gives the table that renaming
    them once gives; an old name that is no column of the table plays no
    part, and a table with none of the old names is left as it is; the loop
    never raises. *)
Theorem rename_columns_idempotent df folder_path listing :
  rename_columns (rename_columns df) = rename_columns df
  ∧ (∀ old, old ∉ columns df →
       rename_columns df = rename (delete old columns_to_rename) df)
  ∧ ((∀ old, is_Some (columns_to_rename !! old) → old ∉ columns df) →
       rename_columns df = df)
  ∧ raised (rename_loop folder_path listing) = None.
Proof.
  assert (∀ df, rename_columns (rename_columns df) = rename_columns df)
    as Hidem.
  { intros df'. unfold rename_columns, rename. rewrite <- list_fmap_compose.
    apply list_fmap_ext. intros i [c s] _. unfold prod_map. simpl.
    by rewrite rename_label_idempotent. }
  split_and!.
  - apply Hidem.
  - intros old. apply rename_absent_key.
  - apply rename_unlisted.
  - apply rename_loop_raised.
Qed.

End renamer_facts.

Lemma rename_columns_idempotent_witness :
  TestPy.rename_columns wind_table
  = rename (delete "TRE_wind_5" TestPy.columns_to_rename) wind_table
  ∧ TestPy.rename_columns plain_table = plain_table.
Proof.
  split.
  - destruct (rename_columns_idempotent wind_table "" []) as (_ & H & _).
    apply H. apply (bool_decide_unpack _). vm_compute. exact I.
  - destruct (rename_columns_idempotent plain_table "" []) as (_ & _ & H & _).
    apply H. intros old Hold Hin.
    apply list_elem_of_In in Hin. simpl in Hin. destruct Hin as [<-|[]].
    vm_compute in Hold. destruct Hold as [new Hnew]. discriminate.
Defined.

(** * The column-range copier *)

Section copier_facts.
Context {V : Type}.
Import TestPy.
Implicit Types (df src tgt : DataFrame V) (c : string) (cols : list string).

Lemma columns_slice first stop df :
  columns (slice first stop df) = slice first stop (columns df).
Proof. unfold columns, slice. by rewrite fmap_take, fmap_drop. Qed.

Lemma slice_subseteq {A} first stop (l : list A) : slice first stop l ⊆ l.
Proof.
  unfold slice. intros x Hx. apply subseteq_take in Hx.
  by apply subseteq_drop in Hx.
Qed.

Lemma NoDup_slice {A} first stop (l : list A) :
  NoDup l → NoDup (slice first stop l).
Proof.
  unfold slice. intros H.
  apply (sublist_NoDup _ (drop first l)); [|apply sublist_take].
  apply (sublist_NoDup _ l); [exact H | apply sublist_drop].
Qed.

Lemma columns_inserted n src cols :
  columns (inserted n src cols) = reverse cols.
Proof.
  unfold inserted, columns. rewrite fmap_reverse, <- list_fmap_compose.
  f_equal. rewrite <- (list_fmap_id cols) at 2. by apply list_fmap_ext.
Qed.

Lemma insert_columns_collision src tgt cols c :
  c ∈ cols → c ∈ columns tgt → raises (insert_columns src tgt cols).
Proof.
  revert tgt. induction cols as [|c0 cols IH]; intros tgt Hc Hin.
  - by apply elem_of_nil in Hc.
  - simpl. destruct (getitem src c0) as [s|e]; simpl; [|done].
    unfold insert. destruct (contains tgt c0) eqn:E; simpl; [done|].
    apply contains_false in E. rewrite drop_0. apply IH.
    + apply elem_of_cons in Hc as [->|?]; [done | done].
    + change (c ∈ c0 :: columns (adopt_index (length s) tgt)).
      rewrite columns_adopt_index. by right.
Qed.

(** C2 (amended): the copier puts the columns at positions [first] to
    [last] of the source in front of the target in reverse order: when none
    of their names is a column of the target, the columns of the result are
    these names from right to left and then the names of the target; each
    inserted column holds the source's cells aligned by row position, and
    when source and target have as many rows the result is the slice
    reversed followed by the target unchanged.  When one of the names is
    already a column of the target the insert raises. *)
Theorem copier_inserts_reversed first last src tgt :
  wf_frame src →
  ((∀ c, c ∈ columns_to_copy first last src → c ∉ columns tgt) →
   ∃ out,
     copy_columns first last src tgt = Ok out
     ∧ columns out = reverse (columns_to_copy first last src) ++ columns tgt
     ∧ (∀ c, c ∈ columns_to_copy first last src →
          getitem out c
          = Ok (reindex (rows_after (nrows src) tgt) (column src c)))
     ∧ (nrows tgt = nrows src →
        out = reverse (slice first (last + 1) src) ++ tgt))
  ∧ (∀ c, c ∈ columns_to_copy first last src → c ∈ columns tgt →
       raises (copy_columns first last src tgt)).
Proof.
  intros Hwf. split; [|intros c; apply insert_columns_collision].
  intros Hfresh. unfold copy_columns.
  set (cols := columns_to_copy first last src) in *.
  assert (NoDup cols) as Hnd by (apply NoDup_slice, Hwf).
  assert (supplies (nrows src) src cols) as Hsup.
  { apply wf_frame_supplies; [done | apply slice_subseteq]. }
  destruct (decide (cols = [])) as [Hnil|Hne].
  - exists tgt. rewrite Hnil. split_and!; try done.
    + intros c Hc. by apply elem_of_nil in Hc.
    + intros _. unfold cols, columns_to_copy in Hnil.
      rewrite <- columns_slice in Hnil. apply fmap_nil_inv in Hnil.
      by rewrite Hnil.
  - eexists. split; [by apply insert_columns_closed|]. split_and!.
    + unfold columns at 1. rewrite fmap_app.
      fold (columns (inserted (rows_after (nrows src) tgt) src cols)).
      fold (columns (adopt_index (nrows src) tgt)).
      by rewrite columns_inserted, columns_adopt_index.
    + intros c Hc. rewrite getitem_app_l.
      * apply getitem_NoDup.
        -- by rewrite columns_inserted, reverse_Permutation.
        -- unfold inserted. apply elem_of_reverse, list_elem_of_fmap.
           by exists c.
      * rewrite columns_inserted. by apply elem_of_reverse.
    + intros Hrows. unfold adopt_index, rows_after. rewrite Hrows.
      rewrite (bool_decide_false (nrows src = 0 ∧ 0 < nrows src)) by lia.
      assert ((if bool_decide (nrows src = 0) then nrows src else nrows src)
              = nrows src) as -> by (by case_bool_decide).
      f_equal. unfold inserted. f_equal. unfold cols, columns_to_copy.
      rewrite <- columns_slice. unfold columns.
      rewrite <- list_fmap_compose.
      rewrite <- (list_fmap_id (slice first (last + 1) src)) at 2.
      apply list_fmap_ext. intros i [c s] Hi. simpl.
      apply list_elem_of_lookup_2, slice_subseteq in Hi.
      destruct Hwf as [Hnd' Hlen]. unfold column.
      rewrite (getitem_NoDup _ _ _ Hnd' Hi).
      rewrite Forall_forall in Hlen. apply Hlen in Hi. simpl in Hi.
      by rewrite <- Hi, reindex_id.
Qed.

End copier_facts.

Lemma copier_inserts_reversed_witness :
  (∃ out,
     TestPy.copy_columns TestPy.start_col TestPy.end_col
       sample_source sample_target = Ok out
     ∧ columns out = ["B"; "A"; "X"]
     ∧ out = reverse (TestPy.slice TestPy.start_col (TestPy.end_col + 1)
                        sample_source) ++ sample_target)
  ∧ raises (TestPy.copy_columns TestPy.start_col TestPy.end_col
              sample_source sample_source).
Proof.
  assert (wf_frame sample_source) as Hwf.
  { split.
    - apply (bool_decide_unpack _). vm_compute. exact I.
    - repeat constructor. }
  split.
  - destruct (copier_inserts_reversed TestPy.start_col TestPy.end_col
                sample_source sample_target Hwf) as [H _].
    destruct H as (out & Ho & Hc & _ & Heq).
    + intros c Hc. apply (bool_decide_unpack _).
      apply list_elem_of_In in Hc. vm_compute in Hc.
      destruct Hc as [<-|[<-|[]]]; vm_compute; exact I.
    + exists out. split; [exact Ho|]. split; [exact Hc|].
      apply Heq. reflexivity.
  - destruct (copier_inserts_reversed TestPy.start_col TestPy.end_col
                sample_source sample_source Hwf) as [_ H].
    apply (H "A"); apply list_elem_of_In; vm_compute.
    + left. reflexivity.
    + right. left. reflexivity.
Defined.

(** C2, as stated, fails: the slice A, B of the source arrives in front of
    the target as B, A. *)
Lemma copier_reverses_slice :
  TestPy.columns_to_copy TestPy.start_col TestPy.end_col sample_source
  = ["A"; "B"]
  ∧ TestPy.copy_columns TestPy.start_col TestPy.end_col
      sample_source sample_target
    = Ok [ ("B", [Some 30; Some 40]); ("A", [Some 10; Some 20]);
           ("X", [Some 7; Some 8]) ]%Z
  ∧ TestPy.copy_columns TestPy.start_col TestPy.end_col
      sample_source sample_target
    ≠ Ok (TestPy.slice TestPy.start_col (TestPy.end_col + 1) sample_source
          ++ sample_target).
Proof. split_and!; [reflexivity | reflexivity | discriminate]. Qed.

(** * Column reconciliation *)

Section reconcile_facts.
Context {V : Type}.
Import TestPy.
Implicit Types (df ref cur : DataFrame V) (c : string) (cols : list string).

Context (set_iter : gset string → list string).
Hypothesis set_iter_elements : ∀ s, set_iter s ≡ₚ elements s.

Lemma elem_of_missing_columns ref cur c :
  c ∈ set_iter (missing_columns ref cur)
  ↔ c ∈ columns ref ∧ c ∉ columns cur.
Proof.
  rewrite set_iter_elements, elem_of_elements. unfold missing_columns.
  rewrite elem_of_difference, !elem_of_list_to_set. done.
Qed.

Lemma getitem_list_columns df cols :
  (∀ c, c ∈ cols → c ∈ columns df) →
  getitem_list df cols = Ok ((λ c, (c, column df c)) <$> cols).
Proof.
  induction cols as [|c cols IH]; intros H; [done|].
  simpl. destruct (getitem_elem df c) as (s & Hs & _); [apply H; left|].
  unfold column at 1. rewrite Hs. simpl. rewrite IH; [done|].
  intros c' Hc'. apply H. by right.
Qed.

Lemma adopt_index_rows m df : nrows df ≠ 0 → adopt_index m df = df.
Proof. intros H. unfold adopt_index. rewrite bool_decide_false; [done|]. lia. Qed.

Lemma adopt_index_same df : adopt_index (nrows df) df = df.
Proof. unfold adopt_index. rewrite bool_decide_false; [done|]. lia. Qed.

Lemma rows_after_same df : rows_after (nrows df) df = nrows df.
Proof. unfold rows_after. by case_bool_decide. Qed.

(** The target once the missing columns have been stored. *)
Lemma add_missing_columns ref cur :
  wf_frame ref →
  ∃ cur',
    add_columns ref cur (set_iter (missing_columns ref cur)) = Ok cur'
    ∧ (∀ c, c ∈ columns ref → c ∉ columns cur →
         getitem cur' c
         = Ok (reindex (rows_after (nrows ref) cur) (column ref c)))
    ∧ (∀ c, c ∈ columns cur → c ∈ columns cur')
    ∧ (nrows cur ≠ 0 ∨ nrows cur = nrows ref →
       ∀ c, c ∈ columns cur → getitem cur' c = getitem cur c).
Proof.
  intros Hwf. rewrite add_columns_replace.
  set (cols := set_iter (missing_columns ref cur)).
  assert (supplies (nrows ref) ref cols) as Hsup.
  { apply wf_frame_supplies; [done|]. intros c Hc.
    by apply elem_of_missing_columns in Hc as [? _]. }
  destruct (decide (cols = [])) as [Hnil|Hne].
  - exists cur. rewrite Hnil. split_and!; try done.
    intros c Hc Hout. assert (c ∈ cols) as Hin
      by (by apply elem_of_missing_columns).
    rewrite Hnil in Hin. by apply elem_of_nil in Hin.
  - eexists. split; [by apply replace_columns_closed|]. split_and!.
    + intros c Hc Hout.
      apply (getitem_assign_in
               (λ c, reindex (rows_after (nrows ref) cur) (column ref c))).
      by apply elem_of_missing_columns.
    + intros c Hc. apply columns_assign_subset.
      by rewrite columns_adopt_index.
    + intros Hrows c Hc. rewrite getitem_assign_out.
      * destruct Hrows as [H0|Heq].
        -- by rewrite adopt_index_rows.
        -- by rewrite <- Heq, adopt_index_same.
      * intros Hin. by apply elem_of_missing_columns in Hin as [_ ?].
Qed.

(** C1 (amended): after reconciliation the columns of the target are the
    columns of the reference, in the reference's order.  A column the
    target lacked holds the reference's cells aligned by row position: cut
    to the target's rows or filled up with missing cells; a column the
    target had keeps its cells when the target has a row.  When target and
    reference have as many rows, the result is the target extended with
    the reference's missing columns and put in the reference's order. *)
Theorem reconcile_matches_reference ref cur :
  wf_frame ref →
  ∃ out,
    reconcile set_iter ref cur = Ok out
    ∧ columns out = columns ref
    ∧ (∀ c, c ∈ columns ref → c ∉ columns cur →
         getitem out c
         = Ok (reindex (rows_after (nrows ref) cur) (column ref c)))
    ∧ (nrows cur ≠ 0 →
       ∀ c, c ∈ columns ref → c ∈ columns cur →
         getitem out c = getitem cur c)
    ∧ (nrows cur = nrows ref → out = reconcile_spec ref cur).
Proof.
  intros Hwf.
  destruct (add_missing_columns ref cur Hwf)
    as (cur' & Hadd & Hnew & Hkeep & Hold).
  assert (∀ c, c ∈ columns ref → c ∈ columns cur') as Hall.
  { intros c Hc. destruct (decide (c ∈ columns cur)) as [|Hout]; [auto|].
    eapply getitem_Ok_columns. by apply Hnew. }
  set (out := (λ c, (c, column cur' c)) <$> columns ref).
  assert (columns out = columns ref) as Hcols.
  { unfold out, columns. rewrite <- list_fmap_compose.
    rewrite <- (list_fmap_id (ref.*1)) at 2. by apply list_fmap_ext. }
  assert (∀ c, c ∈ columns ref → getitem out c = getitem cur' c) as Hget.
  { intros c Hc. destruct (getitem_elem cur' c (Hall c Hc)) as (s & Hs & _).
    rewrite Hs. apply getitem_NoDup; [rewrite Hcols; apply Hwf|].
    apply list_elem_of_fmap. exists c. split; [|done].
    unfold column. by rewrite Hs. }
  exists out. split_and!.
  - unfold reconcile. rewrite Hadd. simpl. by apply getitem_list_columns.
  - done.
  - intros c Hc Hout. rewrite Hget by done. by apply Hnew.
  - intros H0 c Hc Hin. rewrite Hget by done. apply Hold; [by left | done].
  - intros Hrows. unfold out, reconcile_spec, columns.
    rewrite <- list_fmap_compose. apply list_fmap_ext. intros i [c s] Hi.
    simpl. f_equal. apply list_elem_of_lookup_2 in Hi.
    assert (c ∈ columns ref) as Hc.
    { apply list_elem_of_fmap. by exists (c, s). }
    destruct Hwf as [Hnd Hlen].
    pose proof (getitem_NoDup _ _ _ Hnd Hi) as Hs.
    rewrite Forall_forall in Hlen. apply Hlen in Hi. simpl in Hi.
    destruct (contains cur c) eqn:E.
    + apply contains_true in E. unfold column.
      by rewrite (Hold (or_intror Hrows) c E).
    + apply contains_false in E. unfold column at 1.
      rewrite (Hnew c Hc E). rewrite <- Hrows in Hi |- *.
      rewrite rows_after_same. unfold column.
      by rewrite Hs, <- Hi, reindex_id.
Qed.

End reconcile_facts.

Lemma reconcile_matches_reference_witness :
  (∃ out,
     TestPy.reconcile elements sample_reference short_target = Ok out
     ∧ columns out = ["A"; "B"]
     ∧ getitem out "B" = Ok [Some 3%Z]
     ∧ getitem out "A" = Ok [Some 9%Z])
  ∧ TestPy.reconcile elements sample_reference sample_target
    = Ok (reconcile_spec sample_reference sample_target).
Proof.
  assert (wf_frame sample_reference) as Hwf.
  { split.
    - apply (bool_decide_unpack _). vm_compute. exact I.
    - repeat constructor. }
  split.
  - destruct (reconcile_matches_reference elements (λ s, reflexivity _)
                sample_reference short_target Hwf)
      as (out & Ho & Hc & Hnew & Hold & _).
    exists out. split_and!.
    + exact Ho.
    + exact Hc.
    + apply (Hnew "B").
      * apply list_elem_of_In. vm_compute. right. left. reflexivity.
      * apply (bool_decide_unpack _). vm_compute. exact I.
    + rewrite (Hold ltac:(vm_compute; discriminate) "A").
      * reflexivity.
      * apply list_elem_of_In. vm_compute. left. reflexivity.
      * apply list_elem_of_In. vm_compute. right. left. reflexivity.
  - destruct (reconcile_matches_reference elements (λ s, reflexivity _)
                sample_reference sample_target Hwf)
      as (out & Ho & _ & _ & _ & Heq).
    rewrite Ho. f_equal. apply Heq. reflexivity.
Defined.

(** C1, as stated for every target and every reference, fails when the row
    counts differ: the column taken from the reference is cut to the
    target's single row. *)
Lemma reconcile_cuts_reference_column :
  TestPy.reconcile elements sample_reference short_target
  = Ok [ ("A", [Some 9]); ("B", [Some 3]) ]%Z
  ∧ reconcile_spec sample_reference short_target
    = [ ("A", [Some 9]); ("B", [Some 3; Some 4]) ]%Z
  ∧ TestPy.reconcile elements sample_reference short_target
    ≠ Ok (reconcile_spec sample_reference short_target).
Proof. split_and!; [reflexivity | reflexivity | discriminate]. Qed.

(** * The column replacer *)

Section replacer_facts.
Context {V : Type}.
Import TestPy.
Implicit Types (df src tgt : DataFrame V) (c : string)
  (listing : list (string * DataFrame V))
  (folder : gmap string (DataFrame V)).

Lemma replace_loop_cons listing folder file_name tgt :
  replace_loop ((file_name, tgt) :: listing) folder
  = if endswith file_name ".csv"
    then match replaced folder (file_name, tgt) with
         | Ok df => after (Wrote (path_join folder_path1 file_name) df)
                          (replace_loop listing folder)
         | Raise e => Run [] (Some e)
         end
    else replace_loop listing folder.
Proof. done. Qed.

Lemma replace_loop_raises listing folder entry :
  entry ∈ csv_entries listing → raises (replaced folder entry) →
  is_Some (raised (replace_loop listing folder)).
Proof.
  unfold csv_entries. intros Hin Hr. apply list_elem_of_filter in Hin as [Hcsv Hin].
  induction listing as [|[f tgt] listing IH]; [by apply elem_of_nil in Hin|].
  rewrite replace_loop_cons. apply elem_of_cons in Hin as [->|Hin].
  - simpl in Hcsv. rewrite Hcsv.
    destruct (replaced folder (f, tgt)); [done | by eexists].
  - destruct (endswith f ".csv"); [|by apply IH].
    destruct (replaced folder (f, tgt)); [by apply IH | by eexists].
Qed.

Lemma replace_loop_completes (P : string * DataFrame V → DataFrame V → Prop)
    listing folder :
  (∀ entry, entry ∈ csv_entries listing →
     ∃ out, replaced folder entry = Ok out ∧ P entry out) →
  raised (replace_loop listing folder) = None
  ∧ Forall2 (λ entry w, w.1 = path_join folder_path1 entry.1 ∧ P entry w.2)
            (csv_entries listing) (written (replace_loop listing folder)).
Proof.
  unfold csv_entries.
  induction listing as [|[f tgt] listing IH]; intros H.
  - split; [done | constructor].
  - rewrite replace_loop_cons, filter_cons. simpl.
    rewrite filter_cons in H. simpl in H.
    destruct (endswith f ".csv") eqn:E; simpl in *.
    + destruct (H (f, tgt)) as (out & Ho & HP); [left|]. rewrite Ho.
      destruct IH as [IHr IHw]; [intros e He; apply H; by right|].
      split; [done|]. unfold written, after. simpl trace.
      rewrite writes_cons_Wrote. by constructor.
    + by apply IH.
Qed.

Lemma replaced_missing_file folder file_name tgt :
  folder !! file_name = None → raises (replaced folder (file_name, tgt)).
Proof. intros H. unfold replaced, read_csv. cbn [fst snd]. by rewrite H. Qed.

Lemma replaced_found folder file_name tgt src :
  folder !! file_name = Some src →
  replaced folder (file_name, tgt)
  = replace_columns tgt src columns_to_replace.
Proof. intros H. unfold replaced, read_csv. cbn [fst snd]. by rewrite H. Qed.

Lemma replaced_missing_column folder file_name tgt src c :
  folder !! file_name = Some src → c ∈ columns_to_replace →
  c ∉ columns src → raises (replaced folder (file_name, tgt)).
Proof.
  intros H Hc Hout. rewrite (replaced_found _ _ _ _ H).
  by eapply replace_columns_raises.
Qed.

(** C3 (amended): the replacer aborts with an exception when a file of the
    first folder has no namesake in the second, and when the second file
    lacks a listed column.  Otherwise it ends normally and writes one table
    for each file of the first folder, whatever columns and however many
    rows the first file has: every listed column then holds the cells of
    the second file's column aligned by row position, which are the second
    file's cells themselves when the two files have as many rows. *)
Theorem replacer_failures listing folder :
  (∀ file_name tgt,
     (file_name, tgt) ∈ csv_entries listing → folder !! file_name = None →
     is_Some (raised (replace_job listing folder)))
  ∧ (∀ file_name tgt src c,
       (file_name, tgt) ∈ csv_entries listing →
       folder !! file_name = Some src →
       c ∈ columns_to_replace → c ∉ columns src →
       is_Some (raised (replace_job listing folder)))
  ∧ ((∀ file_name tgt,
        (file_name, tgt) ∈ csv_entries listing →
        ∃ src, folder !! file_name = Some src ∧ wf_frame src
               ∧ ∀ c, c ∈ columns_to_replace → c ∈ columns src) →
     raised (replace_job listing folder) = None
     ∧ Forall2
         (λ entry w,
            w.1 = path_join folder_path1 entry.1
            ∧ ∃ src, folder !! entry.1 = Some src
                ∧ ∀ c, c ∈ columns_to_replace →
                    getitem w.2 c
                    = Ok (reindex (rows_after (nrows src) entry.2)
                                  (column src c))
                    ∧ (nrows entry.2 = nrows src →
                       getitem w.2 c = getitem src c))
         (csv_entries listing) (written (replace_job listing folder))).
Proof.
  unfold replace_job. rewrite raised_and_then_print, written_and_then_print.
  split_and!.
  - intros f tgt Hin Hnone. eapply replace_loop_raises; [done|].
    by apply replaced_missing_file.
  - intros f tgt src c Hin Hsome Hc Hout.
    eapply replace_loop_raises; [done|]. by eapply replaced_missing_column.
  - intros H.
    apply (replace_loop_completes
             (λ entry out,
                ∃ src, folder !! entry.1 = Some src
                  ∧ ∀ c, c ∈ columns_to_replace →
                      getitem out c
                      = Ok (reindex (rows_after (nrows src) entry.2)
                                    (column src c))
                      ∧ (nrows entry.2 = nrows src →
                         getitem out c = getitem src c))).
    intros [f tgt] Hin.
    destruct (H f tgt Hin) as (src & Hsome & Hwf & Hcols).
    assert (supplies (nrows src) src columns_to_replace) as Hsup
      by (by apply wf_frame_supplies).
    eexists. split.
    + rewrite (replaced_found _ _ _ _ Hsome).
      by apply replace_columns_closed.
    + cbv beta. cbn [fst snd]. exists src. split; [exact Hsome|].
      intros c Hc.
      assert (getitem
                (assign (λ c, reindex (rows_after (nrows src) tgt) (column src c))
                        (adopt_index (nrows src) tgt) columns_to_replace) c
              = Ok (reindex (rows_after (nrows src) tgt) (column src c)))
        as Hget
        by (by apply (getitem_assign_in
                 (λ c, reindex (rows_after (nrows src) tgt) (column src c)))).
      split; [exact Hget|]. intros Hrows. rewrite Hget.
      destruct (wf_frame_column src c Hwf (Hcols c Hc)) as [-> Hlen].
      rewrite <- Hrows in Hlen |- *.
      by rewrite rows_after_same, <- Hlen, reindex_id.
Qed.

(** C10 (amended): when the replacer has processed a first file that has at
    least one row, that file keeps its number of rows, and every column
    that is not listed keeps its place and its cells. *)
Theorem replacer_keeps_other_columns tgt src out :
  wf_frame src →
  replace_columns tgt src columns_to_replace = Ok out →
  nrows tgt ≠ 0 →
  nrows out = nrows tgt
  ∧ ∀ (i : nat) col,
      tgt !! i = Some col → col.1 ∉ columns_to_replace →
      out !! i = Some col.
Proof.
  remember columns_to_replace as cols eqn:Hcols. clear Hcols.
  intros Hwf Hout Hrows.
  assert (supplies (nrows src) src cols) as Hsup.
  { apply wf_frame_supplies; [done|]. intros c Hc.
    destruct (decide (c ∈ columns src)) as [|Hno]; [done|].
    pose proof (replace_columns_raises tgt src _ c Hc Hno) as Hr.
    by rewrite Hout in Hr. }
  assert (settled (nrows tgt) (nrows src) tgt) as Hset.
  { split_and!; [|done..]. intros ->. by apply Hrows. }
  rewrite (replace_columns_settled _ _ _ _ _ Hset Hsup) in Hout.
  injection Hout as <-. split.
  - apply (nrows_assign (nrows tgt) (nrows src)); [done|].
    intros c _. apply length_reindex.
  - intros i col Hi Hc.
    by apply (lookup_assign_out
                (λ c, reindex (nrows tgt) (column src c))).
Qed.

End replacer_facts.

Lemma wf_replacement_table : wf_frame replacement_table.
Proof.
  split.
  - apply (bool_decide_unpack _). vm_compute. exact I.
  - repeat constructor.
Defined.

Lemma replacer_failures_witness :
  is_Some (raised (TestPy.replace_job [("x.csv", first_table)] ∅))
  ∧ is_Some (raised (TestPy.replace_job [("x.csv", first_table)]
                       {[ "x.csv" := unlisted_table ]}))
  ∧ raised (TestPy.replace_job [("x.csv", first_table)]
              {[ "x.csv" := replacement_table ]}) = None.
Proof.
  split_and!.
  - destruct (replacer_failures [("x.csv", first_table)] ∅) as (H & _ & _).
    apply (H "x.csv" first_table).
    + apply list_elem_of_In. vm_compute. left. reflexivity.
    + reflexivity.
  - destruct (replacer_failures [("x.csv", first_table)]
                {[ "x.csv" := unlisted_table ]}) as (_ & H & _).
    apply (H "x.csv" first_table unlisted_table
             "TRE_landbasedwind_class1_moderate_4").
    + apply list_elem_of_In. vm_compute. left. reflexivity.
    + vm_compute. reflexivity.
    + apply (bool_decide_unpack _). vm_compute. exact I.
    + apply (bool_decide_unpack _). vm_compute. exact I.
  - destruct (replacer_failures [("x.csv", first_table)]
                {[ "x.csv" := replacement_table ]}) as (_ & _ & H).
    apply H. intros file_name tgt Hin.
    apply list_elem_of_In in Hin. vm_compute in Hin.
    destruct Hin as [Heq|[]]. inversion Heq; subst.
    exists replacement_table. split; [vm_compute; reflexivity|].
    split; [exact wf_replacement_table|]. intros c Hc. exact Hc.
Defined.

(** C3, as stated, fails: the first file has none of the listed columns and
    one row against the second file's two, and the job ends normally; the
    listed columns are added to the first file, cut to its single row. *)
Lemma replacer_accepts_missing_columns :
  (∀ c, c ∈ TestPy.columns_to_replace → c ∉ columns unlisted_table)
  ∧ nrows unlisted_table ≠ nrows replacement_table
  ∧ raised (TestPy.replace_job [("x.csv", unlisted_table)]
              {[ "x.csv" := replacement_table ]}) = None
  ∧ written (TestPy.replace_job [("x.csv", unlisted_table)]
               {[ "x.csv" := replacement_table ]})
    = [ ("Generators_variability/test_folder/x.csv",
         ("A", [Some 1%Z])
         :: ((λ c, (c, [Some 5%Z])) <$> TestPy.columns_to_replace)) ].
Proof.
  split_and!.
  - intros c Hc Hin. apply list_elem_of_In in Hin. simpl in Hin.
    destruct Hin as [<-|[]]. apply list_elem_of_In in Hc.
    vm_compute in Hc. repeat (destruct Hc as [Hc|Hc]; [discriminate|]).
    exact Hc.
  - vm_compute. discriminate.
  - vm_compute. reflexivity.
  - vm_compute. reflexivity.
Qed.

Lemma replacer_keeps_other_columns_witness :
  ∃ out,
    TestPy.replace_columns first_table replacement_table
      TestPy.columns_to_replace = Ok out
    ∧ nrows out = nrows first_table
    ∧ out !! 0 = Some ("Time_Index", [Some 1; Some 2]%Z).
Proof.
  assert (∃ out, TestPy.replace_columns first_table replacement_table
                   TestPy.columns_to_replace = Ok out) as [out E].
  { eexists. vm_compute. reflexivity. }
  destruct (replacer_keeps_other_columns first_table replacement_table out
              wf_replacement_table E) as [Hn Hk].
  - vm_compute. discriminate.
  - exists out. split; [exact E|]. split; [exact Hn|].
    apply Hk; [reflexivity|]. apply (bool_decide_unpack _).
    vm_compute. exact I.
Defined.

(** C10, as stated, fails for a first file that has a header and no rows:
    it takes the rows of the second file, its own column being filled with
    missing cells. *)
Lemma replacer_fills_header_only_file :
  ∃ out,
    TestPy.replace_columns header_only replacement_table
      TestPy.columns_to_replace = Ok out
    ∧ ("Time_Index" ∉ TestPy.columns_to_replace)
    ∧ nrows header_only = 0 ∧ nrows out = 2
    ∧ header_only !! 0 = Some ("Time_Index", [])
    ∧ out !! 0 = Some ("Time_Index", [None; None]).
Proof.
  eexists. split; [vm_compute; reflexivity|]. split_and!; try reflexivity.
  apply (bool_decide_unpack _). vm_compute. exact I.
Qed.

(** * Empty directories *)

Section empty_directories.
Context {np : DataProcessing.numerics}.

(** On an empty directory the aggregator, the copier, the reconciliation
    job and the replacer end normally, write nothing and print their
    closing message; the rename loop ends normally and writes nothing. *)
Lemma empty_directory_other_jobs {V} (set_iter : gset string → list string)
    (source_df reference_df : DataFrame V) (folder_path : string)
    (folder2 : gmap string (DataFrame V)) :
  DataProcessing.aggregate_job [] = Run [Printed "Processing complete."] None
  ∧ TestPy.copy_job source_df [] = Run [Printed "All files processed."] None
  ∧ TestPy.reconcile_job set_iter reference_df []
    = Run [Printed "All files processed."] None
  ∧ TestPy.replace_job [] folder2 = Run [Printed "All files processed."] None
  ∧ TestPy.rename_loop folder_path ([] : list (string * DataFrame V))
    = Run [] None.
Proof. split_and!; reflexivity. Qed.

End empty_directories.

(** * File names *)

Section file_names.
Implicit Types (s p q stem ext suffix : string).

Lemma length_app_string p q :
  String.length (p +:+ q) = String.length p + String.length q.
Proof. induction p as [|c p IH]; simpl; [done | by rewrite IH]. Qed.

Lemma string_app_assoc p q s : (p +:+ q) +:+ s = p +:+ (q +:+ s).
Proof.
  induction p as [|c p IH]; [done|].
  change (String c ((p +:+ q) +:+ s) = String c (p +:+ (q +:+ s))).
  by f_equal.
Qed.

Lemma substring_app_skip p q m :
  String.substring (String.length p) m (p +:+ q) = String.substring 0 m q.
Proof. induction p as [|c p IH]; simpl; [done | exact IH]. Qed.

Lemma substring_all q : String.substring 0 (String.length q) q = q.
Proof. induction q as [|c q IH]; simpl; [done | by rewrite IH]. Qed.

Lemma substring_app_take p q :
  String.substring 0 (String.length p) (p +:+ q) = p.
Proof.
  induction p as [|c p IH]; simpl; [by destruct q | by rewrite IH].
Qed.

Lemma substring_split s n :
  n ≤ String.length s →
  s = String.substring 0 n s +:+ String.substring n (String.length s - n) s.
Proof.
  revert n. induction s as [|c s IH]; intros n Hn; simpl in *.
  - by destruct n.
  - destruct n as [|n]; simpl.
    + by rewrite substring_all.
    + change (String c s
              = String c (String.substring 0 n s
                          +:+ String.substring n (String.length s - n) s)).
      f_equal. apply IH. lia.
Qed.

Lemma length_substring_le s m :
  String.length (String.substring 0 m s) ≤ String.length s.
Proof.
  revert m. induction s as [|c s IH]; intros m; simpl.
  - destruct m; simpl; lia.
  - destruct m as [|m]; simpl; [lia|]. specialize (IH m). lia.
Qed.

(** X1: [endswith] holds exactly of the strings that are some prefix
    followed by the suffix. *)
Theorem endswith_spec s suffix :
  endswith s suffix = true ↔ ∃ p, s = p +:+ suffix.
Proof.
  unfold endswith. rewrite bool_decide_eq_true. split.
  - intros H.
    assert (String.length suffix ≤ String.length s) as Hle.
    { destruct (decide (String.length suffix ≤ String.length s))
        as [|Hgt]; [done|].
      replace (String.length s - String.length suffix) with 0 in H by lia.
      pose proof (length_substring_le s (String.length suffix)) as Hl.
      rewrite H in Hl. lia. }
    assert (String.length suffix
            = String.length s - (String.length s - String.length suffix))
      as Hlen by lia.
    set (n := String.length s - String.length suffix) in *.
    exists (String.substring 0 n s). rewrite Hlen in H. rewrite <- H.
    apply substring_split. lia.
  - intros [p ->]. rewrite length_app_string.
    replace (String.length p + String.length suffix - String.length suffix)
      with (String.length p) by lia.
    rewrite substring_app_skip. apply substring_all.
Qed.

Lemma rfind_dot_ext stem ext i :
  (∀ k, rfind_dot ext k = None) →
  rfind_dot (stem +:+ String "." ext) i = Some (i + String.length stem).
Proof.
  intros Hext. revert i. induction stem as [|c stem IH]; intros i; simpl.
  - rewrite Hext. f_equal. lia.
  - rewrite IH. f_equal. lia.
Qed.

Lemma splitext_root_ext stem ext :
  (∀ k, rfind_dot ext k = None) →
  splitext_root (stem +:+ String "." ext)
  = if all_dots stem then stem +:+ String "." ext else stem.
Proof.
  intros Hext. unfold splitext_root. rewrite rfind_dot_ext by done.
  simpl. by rewrite substring_app_take.
Qed.

(** X2: the output of a spreadsheet [stem.xlsx] or [stem.xls] is
    [Load_data/stem_sum.csv] for the aggregator and [Load_data/stem.csv]
    for the regional totals, so the two spellings of one stem share their
    output file; a name that is only dots before the extension keeps the
    extension in the output name. *)
Theorem output_paths stem :
  (all_dots stem = false →
   DataProcessing.output_csv_path (stem +:+ ".xlsx")
   = "Load_data/" +:+ stem +:+ "_sum.csv"
   ∧ DataProcessing.output_csv_path (stem +:+ ".xls")
     = "Load_data/" +:+ stem +:+ "_sum.csv"
   ∧ LoadTotals.csv_path (stem +:+ ".xlsx") = "Load_data/" +:+ stem +:+ ".csv"
   ∧ LoadTotals.csv_path (stem +:+ ".xls") = "Load_data/" +:+ stem +:+ ".csv")
  ∧ (all_dots stem = true →
     DataProcessing.output_csv_path (stem +:+ ".xls")
     = "Load_data/" +:+ stem +:+ ".xls_sum.csv").
Proof.
  unfold DataProcessing.output_csv_path, LoadTotals.csv_path.
  assert (∀ k, rfind_dot "xlsx" k = None) as Hxlsx by done.
  assert (∀ k, rfind_dot "xls" k = None) as Hxls by done.
  pose proof (splitext_root_ext stem "xlsx" Hxlsx) as H1.
  pose proof (splitext_root_ext stem "xls" Hxls) as H2.
  split; intros Hd; rewrite Hd in H1, H2.
  - change (stem +:+ ".xlsx") with (stem +:+ String "." "xlsx").
    change (stem +:+ ".xls") with (stem +:+ String "." "xls").
    rewrite H1, H2. done.
  - change (stem +:+ ".xls") with (stem +:+ String "." "xls").
    rewrite H2, string_app_assoc. done.
Qed.

Lemma output_paths_witness :
  DataProcessing.output_csv_path "load_2020.xlsx" = "Load_data/load_2020_sum.csv"
  ∧ DataProcessing.output_csv_path "load_2020.xls" = "Load_data/load_2020_sum.csv"
  ∧ DataProcessing.output_csv_path "..xls" = "Load_data/..xls_sum.csv".
Proof.
  destruct (output_paths "load_2020") as [H _].
  destruct (H eq_refl) as (H1 & H2 & _).
  destruct (output_paths ".") as [_ H'].
  split_and!; [exact H1 | exact H2 | exact (H' eq_refl)].
Defined.

End file_names.

(** * Row totals and column sums *)

Section totals_more.
Import DataProcessing.
Context {np : numerics}.
Implicit Types (df : DataFrame value) (s a b : Series value).

Lemma fmap_lookup_seq {A B} (h : option A → B) (l : list (option A)) :
  (λ i, h (mjoin (l !! i))) <$> seq 0 (length l) = h <$> l.
Proof.
  induction l as [|x l IH]; [done|].
  simpl. f_equal. by rewrite <- fmap_S_seq, <- list_fmap_compose.
Qed.

Lemma sum_Z_pointwise (f g : nat → Z) (l : list nat) :
  sum_Z ((λ i, f i + g i)%Z <$> l) = (sum_Z (f <$> l) + sum_Z (g <$> l))%Z.
Proof.
  unfold sum_Z. induction l as [|i l IH]; [done|].
  rewrite !fmap_cons. cbn [foldr]. rewrite IH. lia.
Qed.

Lemma wrap64_sum (f : nat → Z) (l : list nat) :
  wrap64 (sum_Z ((λ i, wrap64 (f i)) <$> l)) = wrap64 (sum_Z (f <$> l)).
Proof.
  unfold sum_Z. induction l as [|i l IH]; [done|].
  rewrite !fmap_cons. cbn [foldr].
  rewrite wrap64_add_l, <- wrap64_add_r, IH. apply wrap64_add_r.
Qed.

Lemma sum_axis1_whole c1 c2 a b :
  whole a → whole b →
  sum_axis1 [(c1, a); (c2, b)]
  = (λ i, Some (Int (wrap64 (int_of (mjoin (a !! i))
                             + int_of (mjoin (b !! i))))))
    <$> seq 0 (length a).
Proof.
  intros Ha Hb. unfold sum_axis1. rewrite frame_dtype_whole by done.
  simpl. apply list_fmap_ext. intros _ i _. by rewrite Z.add_0_r.
Qed.

Lemma add_total_closed df :
  wf_frame df → "Column1" ∈ columns df → "Column2" ∈ columns df →
  add_total df = Ok (with_total df).
Proof.
  intros Hwf H1 H2.
  destruct (wf_frame_column df _ Hwf H1) as [Hg1 Hl1].
  destruct (wf_frame_column df _ Hwf H2) as [Hg2 Hl2].
  unfold add_total, total_columns, with_total. simpl. rewrite Hg1, Hg2. simpl.
  rewrite setitem_same_length; [done|].
  by rewrite length_sum_axis1.
Qed.

(** X3: when Column1 and Column2 hold whole numbers only, the cells of the
    Total column add up to the sum of column Column1 plus the sum of column
    Column2, each sum being taken in int64: adding row by row and then down
    the rows gives what adding the two column sums gives, wrap-around
    included. *)
Theorem total_of_totals df :
  wf_frame df → "Column1" ∈ columns df → "Column2" ∈ columns df →
  whole (column df "Column1") → whole (column df "Column2") →
  ∃ out total sum1 sum2,
    add_total df = Ok out
    ∧ getitem out "Total" = Ok total
    ∧ series_sum (column df "Column1") = Ok (Num sum1)
    ∧ series_sum (column df "Column2") = Ok (Num sum2)
    ∧ series_sum total = Ok (Num (wrap64 (sum1 + sum2))).
Proof.
  intros Hwf H1 H2 Ha Hb.
  destruct (wf_frame_column df _ Hwf H1) as [_ Hl1].
  destruct (wf_frame_column df _ Hwf H2) as [_ Hl2].
  eexists _, _, _, _. split; [by apply add_total_closed|].
  split; [apply getitem_set_column_eq|].
  split; [by apply series_sum_whole|].
  split; [by apply series_sum_whole|].
  set (a := column df "Column1") in *. set (b := column df "Column2") in *.
  rewrite sum_axis1_whole by done.
  rewrite series_sum_whole.
  - rewrite <- list_fmap_compose. do 2 f_equal.
    rewrite wrap64_add_l, wrap64_add_r.
    etrans; [apply (wrap64_sum
      (λ i, int_of (mjoin (a !! i)) + int_of (mjoin (b !! i)))%Z)|].
    rewrite sum_Z_pointwise. f_equal. f_equal.
    + by rewrite fmap_lookup_seq.
    + rewrite Hl1, <- Hl2. by rewrite fmap_lookup_seq.
  - apply Forall_fmap, Forall_forall. done.
Qed.

End totals_more.

Lemma total_of_totals_witness :
  ∃ out total,
    DataProcessing.add_total large_table = Ok out
    ∧ getitem out "Total" = Ok total
    ∧ DataProcessing.series_sum (column large_table "Column1")
      = Ok (DataProcessing.Num (2 ^ 62))
    ∧ DataProcessing.series_sum total = Ok (DataProcessing.Num (- 2 ^ 63)).
Proof.
  destruct (total_of_totals large_table wf_large_table)
    as (out & total & sum1 & sum2 & Ho & Hg & H1 & H2 & Hs).
  - apply list_elem_of_In. vm_compute. left. reflexivity.
  - apply list_elem_of_In. vm_compute. right. left. reflexivity.
  - apply (bool_decide_unpack _). vm_compute. exact I.
  - apply (bool_decide_unpack _). vm_compute. exact I.
  - exists out, total. split; [exact Ho|]. split; [exact Hg|].
    vm_compute in H1, H2. inversion H1. inversion H2. subst sum1 sum2.
    split; [reflexivity|]. rewrite Hs. reflexivity.
Defined.

(** * The row-wise summation job as a whole *)

Section total_job_facts.
Import DataProcessing.
Context {np : numerics}.
Implicit Types (df : DataFrame value) (frames results : list (DataFrame value))
  (sheets : list (string * DataFrame value))
  (listing : list (string * workbook)).

Lemma add_total_raises df :
  "Column1" ∉ columns df ∨ "Column2" ∉ columns df → raises (add_total df).
Proof.
  unfold add_total, total_columns. simpl. intros [H|H].
  - by rewrite (getitem_missing _ _ H).
  - destruct (getitem df "Column1"); simpl; [|done].
    by rewrite (getitem_missing _ _ H).
Qed.

Lemma total_sheets_raises sheets results sheet_name df :
  (sheet_name, df) ∈ sheets → raises (add_total df) →
  raises (total_sheets sheets results).
Proof.
  revert results. induction sheets as [|[n df'] sheets IH];
    intros results Hin Hr.
  - by apply elem_of_nil in Hin.
  - simpl. apply elem_of_cons in Hin as [Heq|Hin].
    + inversion Heq; subst. by destruct (add_total df').
    + destruct (add_total df'); simpl; [by apply IH | done].
Qed.

Lemma total_loop_raises listing results file_name content :
  (file_name, content) ∈ listing → endswith file_name ".xlsx" = true →
  match content with
  | Unreadable _ => True
  | Sheets sheets =>
      ∃ sheet_name df, (sheet_name, df) ∈ sheets
        ∧ ("Column1" ∉ columns df ∨ "Column2" ∉ columns df)
  end →
  raises (total_loop listing results).
Proof.
  intros Hin Hx Hbad. revert results.
  induction listing as [|[f w] listing IH]; intros results.
  - by apply elem_of_nil in Hin.
  - simpl. apply elem_of_cons in Hin as [Heq|Hin].
    + inversion Heq; subst. rewrite Hx. destruct w as [err|sheets]; [done|].
      destruct Hbad as (n & df & Hn & Hmiss).
      pose proof (total_sheets_raises sheets results n df Hn
                    (add_total_raises df Hmiss)) as Hr.
      by destruct (total_sheets sheets results).
    + destruct (endswith f ".xlsx"); [|by apply IH].
      destruct w as [err|sheets]; [done|].
      destruct (total_sheets sheets results); simpl; [by apply IH | done].
Qed.

(** X4: the row-wise summation job does not skip what it cannot use: when a
    listed [.xlsx] file does not open, or has a sheet without Column1 or
    without Column2, the job ends with an exception and has written
    nothing, output.csv included. *)
Theorem total_job_aborts listing file_name content :
  (file_name, content) ∈ listing → endswith file_name ".xlsx" = true →
  match content with
  | Unreadable _ => True
  | Sheets sheets =>
      ∃ sheet_name df, (sheet_name, df) ∈ sheets
        ∧ ("Column1" ∉ columns df ∨ "Column2" ∉ columns df)
  end →
  is_Some (raised (total_job listing)) ∧ trace (total_job listing) = [].
Proof.
  intros Hin Hx Hbad.
  pose proof (total_loop_raises listing [] _ _ Hin Hx Hbad) as Hr.
  unfold total_job. destruct (total_loop listing []) as [res|e]; [done|].
  simpl. split; [by eexists | done].
Qed.

Lemma total_sheets_ok sheets results :
  (∀ sheet_name df, (sheet_name, df) ∈ sheets →
     wf_frame df ∧ "Column1" ∈ columns df ∧ "Column2" ∈ columns df) →
  total_sheets sheets results = Ok (results ++ (with_total <$> sheets.*2)).
Proof.
  revert results. induction sheets as [|[n df] sheets IH]; intros results H.
  - simpl. by rewrite app_nil_r.
  - simpl. destruct (H n df) as (Hwf & H1 & H2); [left|].
    rewrite add_total_closed by done. simpl. rewrite IH.
    + by rewrite <- app_assoc.
    + intros n' df' Hin. apply (H n' df'). by right.
Qed.

Lemma total_loop_ok listing results :
  (∀ file_name content,
     (file_name, content) ∈ listing → endswith file_name ".xlsx" = true →
     ∃ sheets, content = Sheets sheets
       ∧ ∀ sheet_name df, (sheet_name, df) ∈ sheets →
           wf_frame df ∧ "Column1" ∈ columns df ∧ "Column2" ∈ columns df) →
  total_loop listing results
  = Ok (results ++ (with_total <$> xlsx_sheets listing)).
Proof.
  revert results. induction listing as [|[f w] listing IH];
    intros results H.
  - simpl. by rewrite app_nil_r.
  - assert (∀ file_name content,
              (file_name, content) ∈ listing →
              endswith file_name ".xlsx" = true →
              ∃ sheets, content = Sheets sheets
                ∧ ∀ sheet_name df, (sheet_name, df) ∈ sheets →
                    wf_frame df ∧ "Column1" ∈ columns df
                    ∧ "Column2" ∈ columns df) as H'.
    { intros f' w' Hin. apply H. by right. }
    unfold xlsx_sheets. rewrite bind_cons. fold (xlsx_sheets listing).
    simpl. destruct (endswith f ".xlsx") eqn:E.
    + destruct (H f w) as (sheets & -> & Hgood); [left | done |].
      rewrite total_sheets_ok by done. simpl. rewrite IH by done.
      by rewrite fmap_app, app_assoc.
    + simpl. by apply IH.
Qed.

Lemma elem_of_union_fold (acc l : list string) c :
  c ∈ foldl (λ acc c, if bool_decide (c ∈ acc) then acc else acc ++ [c]) acc l
  ↔ c ∈ acc ∨ c ∈ l.
Proof.
  revert acc. induction l as [|x l IH]; intros acc; simpl.
  - split; [by left | intros [?|H]; [done | by apply elem_of_nil in H]].
  - rewrite IH. case_bool_decide as Hx.
    + rewrite elem_of_cons. split; [intros [?|?]; auto|].
      intros [?|[->|?]]; auto.
    + rewrite elem_of_app, list_elem_of_singleton, elem_of_cons. tauto.
Qed.

Lemma NoDup_union_fold (acc l : list string) :
  NoDup acc →
  NoDup (foldl (λ acc c, if bool_decide (c ∈ acc) then acc else acc ++ [c])
               acc l).
Proof.
  revert acc. induction l as [|x l IH]; intros acc Hnd; simpl; [done|].
  apply IH. case_bool_decide as Hx; [done|].
  apply NoDup_app. split_and!; [done| |apply NoDup_singleton].
  intros y Hy Hy'. apply list_elem_of_singleton in Hy'. by subst.
Qed.

Lemma elem_of_union_columns frames c :
  c ∈ union_columns frames ↔ ∃ df, df ∈ frames ∧ c ∈ columns df.
Proof.
  unfold union_columns. rewrite elem_of_union_fold, list_elem_of_join.
  split.
  - intros [H|(l & Hc & Hl)]; [by apply elem_of_nil in H|].
    apply list_elem_of_fmap in Hl as (df & -> & Hdf). by exists df.
  - intros (df & Hdf & Hc). right. exists (columns df). split; [done|].
    apply list_elem_of_fmap. by exists df.
Qed.

Lemma length_column_or_missing c df :
  Forall (λ col, length col.2 = nrows df) df →
  length (column_or_missing c df) = nrows df.
Proof.
  intros Hlen. unfold column_or_missing.
  destruct (getitem df c) as [s|e] eqn:E.
  - apply getitem_Ok_elem in E. rewrite Forall_forall in Hlen.
    apply (Hlen _ E).
  - apply length_replicate.
Qed.

Lemma length_concat_column c frames :
  Forall wf_frame frames →
  length (mjoin (column_or_missing c <$> frames))
  = sum_nat (nrows <$> frames).
Proof.
  induction 1 as [|df frames [_ Hdf] _ IH]; [done|].
  rewrite !fmap_cons.
  change (length (column_or_missing c df
                  ++ mjoin (column_or_missing c <$> frames))
          = nrows df + sum_nat (nrows <$> frames)).
  by rewrite length_app, IH, length_column_or_missing.
Qed.

Lemma wf_with_total df :
  wf_frame df → "Column1" ∈ columns df →
  wf_frame (with_total df) ∧ nrows (with_total df) = nrows df.
Proof.
  intros Hwf H1. destruct (wf_frame_column df _ Hwf H1) as [_ Hl1].
  destruct Hwf as [Hnd Hlen]. unfold with_total.
  set (v := sum_axis1 _).
  assert (length v = nrows df) as Hv.
  { unfold v. by rewrite length_sum_axis1. }
  assert (nrows (set_column df "Total" v) = nrows df) as Hn.
  { rewrite nrows_set_column; [done|]. by intros _. }
  split; [|done]. split.
  - rewrite columns_set_column. destruct (contains df "Total") eqn:E; [done|].
    apply contains_false in E. apply NoDup_app. split_and!; [done| |].
    + intros c Hc Hc'. apply list_elem_of_singleton in Hc'. by subst.
    + apply NoDup_singleton.
  - rewrite Hn. unfold set_column. destruct (contains df "Total").
    + apply Forall_fmap. eapply Forall_impl; [exact Hlen|].
      intros [c s] Hs. simpl in *. by destruct (decide (c = "Total")).
    + apply Forall_app. split; [done|]. by constructor.
Qed.

(** X5: when every listed [.xlsx] file opens, every sheet has Column1 and
    Column2 and there is at least one sheet, the job ends normally having
    written the single file output.csv; its table has as many rows as all
    sheets together, a column for every column of any sheet and for Total
    and no other, each once, and all its columns are of that length. *)
Theorem total_job_concatenates listing :
  (∀ file_name content,
     (file_name, content) ∈ listing → endswith file_name ".xlsx" = true →
     ∃ sheets, content = Sheets sheets
       ∧ ∀ sheet_name df, (sheet_name, df) ∈ sheets →
           wf_frame df ∧ "Column1" ∈ columns df ∧ "Column2" ∈ columns df) →
  xlsx_sheets listing ≠ [] →
  ∃ final_result,
    total_job listing = Run [Wrote "output.csv" (Table final_result)] None
    ∧ wf_frame final_result
    ∧ nrows final_result = sum_nat (nrows <$> xlsx_sheets listing)
    ∧ ∀ c, c ∈ columns final_result
           ↔ c = "Total" ∨ ∃ df, df ∈ xlsx_sheets listing ∧ c ∈ columns df.
Proof.
  intros Hgood Hne.
  assert (∀ df, df ∈ xlsx_sheets listing →
            wf_frame df ∧ "Column1" ∈ columns df ∧ "Column2" ∈ columns df)
    as Hall.
  { intros df Hdf. unfold xlsx_sheets in Hdf.
    apply list_elem_of_bind in Hdf as ([f w] & Hdf & Hin). simpl in Hdf.
    destruct (endswith f ".xlsx") eqn:E; [|by apply elem_of_nil in Hdf].
    destruct (Hgood f w Hin E) as (sheets & -> & Hs).
    apply list_elem_of_fmap in Hdf as ([n df'] & -> & Hdf).
    by apply (Hs n). }
  set (frames := with_total <$> xlsx_sheets listing).
  assert (Forall wf_frame frames) as Hwf.
  { apply Forall_fmap, Forall_forall. intros df Hdf.
    destruct (Hall df Hdf) as (? & ? & ?). by apply wf_with_total. }
  assert (nrows <$> frames = nrows <$> xlsx_sheets listing) as Hrows.
  { unfold frames. rewrite <- list_fmap_compose. apply list_fmap_ext.
    intros i df Hi. apply list_elem_of_lookup_2 in Hi.
    destruct (Hall df Hi) as (? & ? & ?). simpl. by apply wf_with_total. }
  assert (∀ c, c ∈ union_columns frames
               ↔ c = "Total" ∨ ∃ df, df ∈ xlsx_sheets listing ∧ c ∈ columns df)
    as Hcols.
  { intros c. rewrite elem_of_union_columns. unfold frames. split.
    - intros (df' & Hdf' & Hc).
      apply list_elem_of_fmap in Hdf' as (df & -> & Hdf).
      unfold with_total in Hc. rewrite columns_set_column in Hc.
      destruct (contains df "Total"); [right; by exists df|].
      apply elem_of_app in Hc as [Hc|Hc]; [right; by exists df|].
      left. by apply list_elem_of_singleton in Hc.
    - intros [->|(df & Hdf & Hc)].
      + destruct (xlsx_sheets listing) as [|df l] eqn:E; [done|].
        exists (with_total df). split; [left|].
        eapply getitem_Ok_columns. apply getitem_set_column_eq.
      + exists (with_total df). split; [by apply list_elem_of_fmap_2|].
        unfold with_total. rewrite columns_set_column.
        destruct (contains df "Total"); [done|]. apply elem_of_app. by left. }
  set (final := (λ c, (c, mjoin (column_or_missing c <$> frames)))
                <$> union_columns frames).
  assert (columns final = union_columns frames) as Hfc.
  { unfold final, columns. rewrite <- list_fmap_compose.
    rewrite <- (list_fmap_id (union_columns frames)) at 2.
    by apply list_fmap_ext. }
  assert (nrows final = sum_nat (nrows <$> frames)) as Hn.
  { assert ("Total" ∈ union_columns frames) as Ht by (apply Hcols; by left).
    unfold final. destruct (union_columns frames) as [|c l]; simpl.
    - by apply elem_of_nil in Ht.
    - by apply length_concat_column. }
  exists final. split_and!.
  - unfold total_job. rewrite total_loop_ok by done. simpl.
    fold frames. unfold concat.
    destruct frames as [|df l] eqn:E; [|done].
    unfold frames in E. apply fmap_nil_inv in E. done.
  - split.
    + rewrite Hfc. unfold union_columns. apply NoDup_union_fold, NoDup_nil_2.
    + rewrite Hn. unfold final. apply Forall_fmap, Forall_forall.
      intros c _. simpl. by apply length_concat_column.
  - by rewrite Hn, Hrows.
  - intros c. rewrite Hfc. apply Hcols.
Qed.

End total_job_facts.

Lemma total_job_aborts_witness :
  is_Some (raised (DataProcessing.total_job sample_listing))
  ∧ trace (DataProcessing.total_job sample_listing) = [].
Proof.
  apply (total_job_aborts sample_listing "load_2020.xlsx"
           (DataProcessing.Sheets
              [("S1", scenario); ("S2", [("FAR_WEST", ints [1%Z])])])).
  - apply list_elem_of_In. vm_compute. left. reflexivity.
  - vm_compute. reflexivity.
  - exists "S1", scenario. split.
    + apply list_elem_of_In. vm_compute. left. reflexivity.
    + left. apply (bool_decide_unpack _). vm_compute. exact I.
Defined.

Lemma total_job_concatenates_witness :
  ∃ final_result,
    DataProcessing.total_job one_sheet_folder
    = Run [Wrote "output.csv" (DataProcessing.Table final_result)] None
    ∧ nrows final_result = 2.
Proof.
  destruct (total_job_concatenates one_sheet_folder)
    as (final & Hrun & _ & Hn & _).
  - intros f w Hin Hx. apply list_elem_of_In in Hin. vm_compute in Hin.
    destruct Hin as [Heq|[]]. inversion Heq; subst.
    exists [("S1", table_without_total)]. split; [reflexivity|].
    intros n df Hdf. apply list_elem_of_In in Hdf. simpl in Hdf.
    destruct Hdf as [Heq'|[]]. inversion Heq'; subst. split_and!.
    + split.
      * apply (bool_decide_unpack _). vm_compute. exact I.
      * repeat constructor.
    + apply list_elem_of_In. vm_compute. right. left. reflexivity.
    + apply list_elem_of_In. vm_compute. right. right. left. reflexivity.
  - vm_compute. discriminate.
  - exists final. split; [exact Hrun|]. rewrite Hn. reflexivity.
Defined.

(** * Regional load totals *)

Section load_totals_facts.
Import DataProcessing LoadTotals.
Context {np : numerics}.
Implicit Types (df : DataFrame value) (a b : Series value) (c : string)
  (listing : list (string * workbook)).

Lemma columns_setitem {V} (df : DataFrame V) c (v : Series V) :
  columns (setitem df c v)
  = if contains df c then columns df else columns df ++ [c].
Proof.
  unfold setitem, ensure_valid_index. rewrite columns_set_column.
  unfold contains. by rewrite !columns_adopt_index.
Qed.

Lemma getitem_setitem_missing {V} (df : DataFrame V) c c' (v : Series V) :
  c ≠ c' → c' ∉ columns df → getitem (setitem df c v) c' = Raise (KeyError c').
Proof.
  intros Hne Hout. apply getitem_missing. rewrite columns_setitem.
  destruct (contains df c); [done|]. rewrite elem_of_app.
  intros [?|Hc]; [done|]. apply list_elem_of_singleton in Hc. by subst.
Qed.

Lemma float_cell_not_text f : ¬ is_text (float_cell f).
Proof. unfold float_cell. destruct (PrimFloat.is_nan f); simpl; tauto. Qed.

Lemma add_float64_not_text (x y : option value) : ¬ is_text (add_float64 x y).
Proof.
  unfold add_float64.
  destruct (is_missing x || is_missing y); [simpl; tauto|].
  apply float_cell_not_text.
Qed.

(** The sum of two columns without text that have the same rows. *)
Lemma series_add_spec a b :
  numeric a → numeric b → length a = length b →
  ∃ r, series_add a b = Ok r
    ∧ length r = length a
    ∧ numeric r
    ∧ (whole a → whole b →
       whole r
       ∧ ∀ i, i < length a →
           r !! i = Some (Some (Int (wrap64 (int_of (mjoin (a !! i))
                                             + int_of (mjoin (b !! i)))))))
    ∧ (∀ i, i < length a →
         mjoin (a !! i) = None ∨ mjoin (b !! i) = None → r !! i = Some None).
Proof.
  intros Ha Hb Hl.
  assert (reindex (length a `max` length b) a = a) as Ea.
  { rewrite <- Hl, Nat.max_id. apply reindex_id. }
  assert (reindex (length a `max` length b) b = b) as Eb.
  { rewrite Hl, Nat.max_id. apply reindex_id. }
  unfold series_add. cbv zeta. rewrite Ea, Eb.
  rewrite !numeric_no_text by done. simpl.
  destruct (forallb is_int a && forallb is_int b) eqn:E.
  - apply andb_true_iff in E as [Wa Wb].
    apply Is_true_true_2, forallb_True in Wa, Wb.
    assert (∀ i, i < length a →
              zip_with add_int64 a b !! i
              = Some (Some (Int (wrap64 (int_of (mjoin (a !! i))
                                         + int_of (mjoin (b !! i)))))))
      as Hcell.
    { intros i Hi. rewrite lookup_zip_with.
      destruct (lookup_lt_is_Some_2 a i Hi) as [x Hx].
      destruct (lookup_lt_is_Some_2 b i) as [y Hy]; [lia|].
      by rewrite Hx, Hy. }
    assert (whole (zip_with add_int64 a b)) as Hw.
    { apply Forall_lookup. intros i c Hi.
      apply lookup_zip_with_Some in Hi as (x & y & -> & _ & _). done. }
    eexists. split; [done|]. split_and!.
    + by apply length_zip_with_l_eq.
    + by apply whole_numeric.
    + done.
    + intros i Hi [Hn|Hn].
      * destruct (lookup_lt_is_Some_2 a i Hi) as [x Hx].
        rewrite Hx in Hn. simpl in Hn. subst x.
        by apply (Forall_lookup_1 _ _ _ _ Wa) in Hx.
      * destruct (lookup_lt_is_Some_2 b i) as [y Hy]; [lia|].
        rewrite Hy in Hn. simpl in Hn. subst y.
        by apply (Forall_lookup_1 _ _ _ _ Wb) in Hy.
  - eexists. split; [done|]. split_and!.
    + by apply length_zip_with_l_eq.
    + apply Forall_lookup. intros i c Hi.
      apply lookup_zip_with_Some in Hi as (x & y & -> & _ & _).
      apply add_float64_not_text.
    + intros Wa Wb. apply whole_all_int in Wa, Wb. by rewrite Wa, Wb in E.
    + intros i Hi Hn. rewrite lookup_zip_with.
      destruct (lookup_lt_is_Some_2 a i Hi) as [x Hx].
      destruct (lookup_lt_is_Some_2 b i) as [y Hy]; [lia|].
      rewrite Hx, Hy in *. simpl in *. unfold add_float64.
      destruct Hn as [->| ->]; simpl; [done|]. by rewrite orb_true_r.
Qed.

(** X6: on a sheet that has the eight regional columns, none of them with
    text, the two new columns are the only columns written, in the order
    TRE_WEST, TRE, with as many rows as the sheet; a cell of TRE_WEST or of
    TRE is missing as soon as one of its summands is; and when the eight
    columns hold whole numbers only, a cell of TRE_WEST is FAR_WEST + NORTH
    + WEST of its row and a cell of TRE is COAST + EAST + NORTH_C +
    SOUTHERN + SOUTH_C, taken in int64. *)
Theorem region_totals_rows df :
  wf_frame df →
  (∀ c, c ∈ region_columns → c ∈ columns df ∧ numeric (column df c)) →
  ∃ tre_west tre,
    region_totals df = Ok [("TRE_WEST", tre_west); ("TRE", tre)]
    ∧ length tre_west = nrows df ∧ length tre = nrows df
    ∧ (∀ i c, i < nrows df → cell_of df c i = None →
         (c ∈ ["FAR_WEST"; "NORTH"; "WEST"] → tre_west !! i = Some None)
         ∧ (c ∈ ["COAST"; "EAST"; "NORTH_C"; "SOUTHERN"; "SOUTH_C"] →
            tre !! i = Some None))
    ∧ ((∀ c, c ∈ region_columns → whole (column df c)) →
       ∀ i, i < nrows df →
         tre_west !! i
         = Some (Some (Int (wrap64 (int_of (cell_of df "FAR_WEST" i)
                                    + int_of (cell_of df "NORTH" i)
                                    + int_of (cell_of df "WEST" i)))))
         ∧ tre !! i
           = Some (Some (Int (wrap64 (int_of (cell_of df "COAST" i)
                                      + int_of (cell_of df "EAST" i)
                                      + int_of (cell_of df "NORTH_C" i)
                                      + int_of (cell_of df "SOUTHERN" i)
                                      + int_of (cell_of df "SOUTH_C" i)))))).
Proof.
  intros Hwf Hcols.
  assert (∀ c, c ∈ region_columns →
            getitem df c = Ok (column df c) ∧ length (column df c) = nrows df
            ∧ numeric (column df c))
    as Hcol.
  { intros c Hc. destruct (Hcols c Hc) as [Hin Hnum].
    destruct (wf_frame_column df c Hwf Hin). done. }
  destruct (Hcol "FAR_WEST") as (G1 & L1 & N1);
    [apply list_elem_of_In; simpl; tauto|].
  destruct (Hcol "NORTH") as (G2 & L2 & N2);
    [apply list_elem_of_In; simpl; tauto|].
  destruct (Hcol "WEST") as (G3 & L3 & N3);
    [apply list_elem_of_In; simpl; tauto|].
  destruct (Hcol "COAST") as (G4 & L4 & N4);
    [apply list_elem_of_In; simpl; tauto|].
  destruct (Hcol "EAST") as (G5 & L5 & N5);
    [apply list_elem_of_In; simpl; tauto|].
  destruct (Hcol "NORTH_C") as (G6 & L6 & N6);
    [apply list_elem_of_In; simpl; tauto|].
  destruct (Hcol "SOUTHERN") as (G7 & L7 & N7);
    [apply list_elem_of_In; simpl; tauto|].
  destruct (Hcol "SOUTH_C") as (G8 & L8 & N8);
    [apply list_elem_of_In; simpl; tauto|].
  destruct (series_add_spec (column df "FAR_WEST") (column df "NORTH"))
    as (r1 & A1 & LR1 & NR1 & W1 & M1); [done | done | lia |].
  destruct (series_add_spec r1 (column df "WEST"))
    as (tw & A2 & LR2 & NR2 & W2 & M2); [done | done | lia |].
  destruct (series_add_spec (column df "COAST") (column df "EAST"))
    as (r3 & A3 & LR3 & NR3 & W3 & M3); [done | done | lia |].
  destruct (series_add_spec r3 (column df "NORTH_C"))
    as (r4 & A4 & LR4 & NR4 & W4 & M4); [done | done | lia |].
  destruct (series_add_spec r4 (column df "SOUTHERN"))
    as (r5 & A5 & LR5 & NR5 & W5 & M5); [done | done | lia |].
  destruct (series_add_spec r5 (column df "SOUTH_C"))
    as (t & A6 & LR6 & NR6 & W6 & M6); [done | done | lia |].
  assert (length tw = nrows df) as Ltw by lia.
  assert (length t = nrows df) as Lt by lia.
  set (df1 := set_column df "TRE_WEST" tw).
  assert (nrows df1 = nrows df) as Hn1.
  { unfold df1. rewrite nrows_set_column; [done|]. by intros _. }
  exists tw, t. split_and!.
  - assert (∀ c, c ∈ region_columns → getitem df1 c = Ok (column df c))
      as Hcol1.
    { intros c Hc. unfold df1. rewrite getitem_set_column_ne.
      - by apply Hcol.
      - intros <-. apply list_elem_of_In in Hc. simpl in Hc.
        repeat (destruct Hc as [Hc|Hc]; [discriminate|]). done. }
    unfold region_totals.
    rewrite G1, bind_Ok, G2, bind_Ok, A1, bind_Ok, G3, bind_Ok, A2, bind_Ok.
    cbv zeta. rewrite setitem_same_length by done. fold df1.
    rewrite (Hcol1 "COAST"), bind_Ok by (apply list_elem_of_In; simpl; tauto).
    rewrite (Hcol1 "EAST"), bind_Ok by (apply list_elem_of_In; simpl; tauto).
    rewrite A3, bind_Ok.
    rewrite (Hcol1 "NORTH_C"), bind_Ok
      by (apply list_elem_of_In; simpl; tauto).
    rewrite A4, bind_Ok.
    rewrite (Hcol1 "SOUTHERN"), bind_Ok
      by (apply list_elem_of_In; simpl; tauto).
    rewrite A5, bind_Ok.
    rewrite (Hcol1 "SOUTH_C"), bind_Ok
      by (apply list_elem_of_In; simpl; tauto).
    rewrite A6, bind_Ok.
    rewrite setitem_same_length by lia.
    unfold getitem_list.
    rewrite (getitem_set_column_ne df1 "TRE" "TRE_WEST") by done. unfold df1.
    rewrite getitem_set_column_eq, bind_Ok.
    by rewrite getitem_set_column_eq, bind_Ok.
  - done.
  - done.
  - intros i c Hi Hnone. unfold cell_of in Hnone.
    assert (∀ r : Series value, r !! i = Some None → mjoin (r !! i) = None)
      as Hm.
    { intros r Hr. by rewrite Hr. }
    split; intros Hc; repeat (apply elem_of_cons in Hc as [->|Hc]);
      try (by apply elem_of_nil in Hc).
    + apply M2; [lia|]. left. apply Hm, M1; [lia|]. by left.
    + apply M2; [lia|]. left. apply Hm, M1; [lia|]. by right.
    + apply M2; [lia|]. by right.
    + apply M6; [lia|]. left. apply Hm, M5; [lia|]. left.
      apply Hm, M4; [lia|]. left. apply Hm, M3; [lia|]. by left.
    + apply M6; [lia|]. left. apply Hm, M5; [lia|]. left.
      apply Hm, M4; [lia|]. left. apply Hm, M3; [lia|]. by right.
    + apply M6; [lia|]. left. apply Hm, M5; [lia|]. left.
      apply Hm, M4; [lia|]. by right.
    + apply M6; [lia|]. left. apply Hm, M5; [lia|]. by right.
    + apply M6; [lia|]. by right.
  - intros Hw i Hi. unfold cell_of.
    assert (∀ c, c ∈ region_columns → whole (column df c)) as Hw' by done.
    destruct W1 as [WR1 C1]; [apply Hw; apply list_elem_of_In; simpl; tauto..|].
    destruct W2 as [WR2 C2];
      [done | apply Hw; apply list_elem_of_In; simpl; tauto|].
    destruct W3 as [WR3 C3]; [apply Hw; apply list_elem_of_In; simpl; tauto..|].
    destruct W4 as [WR4 C4];
      [done | apply Hw; apply list_elem_of_In; simpl; tauto|].
    destruct W5 as [WR5 C5];
      [done | apply Hw; apply list_elem_of_In; simpl; tauto|].
    destruct W6 as [WR6 C6];
      [done | apply Hw; apply list_elem_of_In; simpl; tauto|].
    split.
    + rewrite C2, C1 by lia. simpl. by rewrite wrap64_add_l.
    + rewrite C6, C5, C4, C3 by lia. simpl.
      by rewrite wrap64_add_l, wrap64_add_l2, wrap64_add_l3.
Qed.

Lemma region_totals_raises df c :
  c ∈ region_columns → c ∉ columns df → raises (region_totals df).
Proof.
  intros Hc Hout. unfold region_totals.
  destruct (getitem df "FAR_WEST") as [a1|] eqn:E1; [rewrite bind_Ok|done].
  destruct (getitem df "NORTH") as [a2|] eqn:E2; [rewrite bind_Ok|done].
  destruct (series_add a1 a2) as [r1|]; [rewrite bind_Ok|done].
  destruct (getitem df "WEST") as [a3|] eqn:E3; [rewrite bind_Ok|done].
  destruct (series_add r1 a3) as [tw|]; [rewrite bind_Ok|done].
  cbv zeta. set (df1 := setitem df "TRE_WEST" tw).
  destruct (getitem df1 "COAST") as [a4|] eqn:E4; [rewrite bind_Ok|done].
  destruct (getitem df1 "EAST") as [a5|] eqn:E5; [rewrite bind_Ok|done].
  destruct (series_add a4 a5) as [r3|]; [rewrite bind_Ok|done].
  destruct (getitem df1 "NORTH_C") as [a6|] eqn:E6; [rewrite bind_Ok|done].
  destruct (series_add r3 a6) as [r4|]; [rewrite bind_Ok|done].
  destruct (getitem df1 "SOUTHERN") as [a7|] eqn:E7; [rewrite bind_Ok|done].
  destruct (series_add r4 a7) as [r5|]; [rewrite bind_Ok|done].
  destruct (getitem df1 "SOUTH_C") as [a8|] eqn:E8; [rewrite bind_Ok|done].
  exfalso. unfold region_columns in Hc.
  repeat (apply elem_of_cons in Hc as [->|Hc]);
    try (by apply elem_of_nil in Hc);
    try (by rewrite (getitem_missing _ _ Hout) in *);
    unfold df1 in *;
    rewrite getitem_setitem_missing in * by done; discriminate.
Qed.

Lemma prints_totals_loop listing : prints (trace (totals_loop listing)) = [].
Proof.
  induction listing as [|[f w] listing IH]; [done|]. simpl.
  destruct (_ || _); [|done].
  destruct (_ ≫= _); [|done]. exact IH.
Qed.

Lemma totals_loop_raises listing file_name content :
  (file_name, content) ∈ listing →
  endswith file_name ".xls" || endswith file_name ".xlsx" = true →
  raises (df ← read_excel content; region_totals df) →
  is_Some (raised (totals_loop listing)).
Proof.
  intros Hin Hx Hr.
  induction listing as [|[f w] listing IH]; [by apply elem_of_nil in Hin|].
  simpl. apply elem_of_cons in Hin as [Heq|Hin].
  - inversion Heq; subst. rewrite Hx.
    destruct (read_excel w ≫= _); [done | by eexists].
  - destruct (endswith f ".xls" || endswith f ".xlsx"); [|by apply IH].
    destruct (read_excel w ≫= _); [by apply IH | by eexists].
Qed.

(** X7: the regional totals job stops at the first spreadsheet it cannot
    use: when a listed spreadsheet does not open, or its first sheet lacks
    one of the eight regional columns, the job ends with an exception and
    its closing message is not printed; nothing at all is printed. *)
Theorem totals_job_aborts listing file_name content :
  (file_name, content) ∈ listing →
  endswith file_name ".xls" || endswith file_name ".xlsx" = true →
  match content with
  | DataProcessing.Unreadable _ => True
  | DataProcessing.Sheets [] => True
  | DataProcessing.Sheets ((_, df) :: _) =>
      ∃ c, c ∈ region_columns ∧ c ∉ columns df
  end →
  is_Some (raised (totals_job listing)) ∧ console (totals_job listing) = [].
Proof.
  intros Hin Hx Hbad.
  assert (is_Some (raised (totals_loop listing))) as [e He].
  { eapply totals_loop_raises; [done..|].
    destruct content as [err|[|[n df] sheets]]; simpl; [done..|].
    destruct Hbad as (c & Hc & Hout). by eapply region_totals_raises. }
  unfold totals_job, and_then, console. rewrite He, He.
  split; [by eexists | apply prints_totals_loop].
Qed.

End load_totals_facts.

Lemma wf_load_sheet : wf_frame load_sheet.
Proof.
  split.
  - apply (bool_decide_unpack _). vm_compute. exact I.
  - repeat constructor.
Qed.

Lemma wf_gap_sheet : wf_frame gap_sheet.
Proof.
  split.
  - apply (bool_decide_unpack _). vm_compute. exact I.
  - repeat constructor.
Qed.

Lemma wf_large_sheet : wf_frame large_sheet.
Proof.
  split.
  - apply (bool_decide_unpack _). vm_compute. exact I.
  - repeat constructor.
Qed.

Lemma region_totals_rows_witness :
  (∃ tre_west tre,
     LoadTotals.region_totals load_sheet
     = Ok [("TRE_WEST", tre_west); ("TRE", tre)]
     ∧ tre_west !! 0 = Some (Some (DataProcessing.Int 9))
     ∧ tre !! 1 = Some (Some (DataProcessing.Int 10)))
  ∧ (∃ tre_west tre,
       LoadTotals.region_totals large_sheet
       = Ok [("TRE_WEST", tre_west); ("TRE", tre)]
       ∧ tre_west !! 0 = Some (Some (DataProcessing.Int (- 2 ^ 63))))
  ∧ (∃ tre_west tre,
       LoadTotals.region_totals gap_sheet
       = Ok [("TRE_WEST", tre_west); ("TRE", tre)]
       ∧ tre_west !! 1 = Some None).
Proof.
  split_and!.
  - destruct (region_totals_rows load_sheet wf_load_sheet)
      as (tw & t & Hr & _ & _ & _ & Hint).
    + intros c Hc. apply list_elem_of_In in Hc. simpl in Hc.
      repeat (destruct Hc as [<-|Hc]);
        try (split; [apply list_elem_of_In; simpl; tauto
                    | apply (bool_decide_unpack _); vm_compute; exact I]).
      destruct Hc.
    + exists tw, t. split; [exact Hr|].
      destruct (Hint) with (i := 0) as [H0 _].
      * intros c Hc. apply list_elem_of_In in Hc. simpl in Hc.
        repeat (destruct Hc as [<-|Hc]);
          try (apply (bool_decide_unpack _); vm_compute; exact I).
        destruct Hc.
      * vm_compute. lia.
      * destruct (Hint) with (i := 1) as [_ H1].
        -- intros c Hc. apply list_elem_of_In in Hc. simpl in Hc.
           repeat (destruct Hc as [<-|Hc]);
             try (apply (bool_decide_unpack _); vm_compute; exact I).
           destruct Hc.
        -- vm_compute. lia.
        -- split; [exact H0 | exact H1].
  - destruct (region_totals_rows large_sheet wf_large_sheet)
      as (tw & t & Hr & _ & _ & _ & Hint).
    + intros c Hc. apply list_elem_of_In in Hc. simpl in Hc.
      repeat (destruct Hc as [<-|Hc]);
        try (split; [apply list_elem_of_In; simpl; tauto
                    | apply (bool_decide_unpack _); vm_compute; exact I]).
      destruct Hc.
    + exists tw, t. split; [exact Hr|].
      destruct (Hint) with (i := 0) as [H0 _].
      * intros c Hc. apply list_elem_of_In in Hc. simpl in Hc.
        repeat (destruct Hc as [<-|Hc]);
          try (apply (bool_decide_unpack _); vm_compute; exact I).
        destruct Hc.
      * vm_compute. lia.
      * exact H0.
  - destruct (region_totals_rows gap_sheet wf_gap_sheet)
      as (tw & t & Hr & _ & _ & Hmiss & _).
    + intros c Hc. apply list_elem_of_In in Hc. simpl in Hc.
      repeat (destruct Hc as [<-|Hc]);
        try (split; [apply list_elem_of_In; simpl; tauto
                    | apply (bool_decide_unpack _); vm_compute; exact I]).
      destruct Hc.
    + exists tw, t. split; [exact Hr|].
      apply (Hmiss 1 "NORTH"); [vm_compute; lia | reflexivity |].
      apply list_elem_of_In. simpl. tauto.
Defined.

Lemma totals_job_aborts_witness :
  is_Some (raised (LoadTotals.totals_job
                     [("load_2020.xls",
                       DataProcessing.Sheets [("S1", scenario)])]))
  ∧ console (LoadTotals.totals_job
               [("load_2020.xls",
                 DataProcessing.Sheets [("S1", scenario)])]) = [].
Proof.
  apply (totals_job_aborts _ "load_2020.xls"
           (DataProcessing.Sheets [("S1", scenario)])).
  - apply list_elem_of_In. left. reflexivity.
  - vm_compute. reflexivity.
  - exists "COAST". split.
    + apply list_elem_of_In. vm_compute. tauto.
    + apply (bool_decide_unpack _). vm_compute. exact I.
Defined.

(** * More on the column renamer *)

Section renamer_more.
Context {V : Type}.
Import TestPy.
Implicit Types (df : DataFrame V) (c old new : string)
  (listing : list (string * DataFrame V)).

Lemma rename_keys_NoDup : NoDup (rename_pairs.*1).
Proof. refine (bool_decide_unpack _ _). vm_compute. exact I. Qed.

Lemma rename_values_injective :
  Forall (λ p, Forall (λ q, p.2 = q.2 → p.1 = q.1) rename_pairs) rename_pairs.
Proof. refine (bool_decide_unpack _ _). vm_compute. exact I. Qed.

Lemma rename_lookup_injective old old' new :
  columns_to_rename !! old = Some new → columns_to_rename !! old' = Some new →
  old = old'.
Proof.
  intros H H'. apply elem_of_list_to_map_2 in H, H'.
  pose proof rename_values_injective as Hinj.
  rewrite Forall_forall in Hinj. specialize (Hinj _ H).
  rewrite Forall_forall in Hinj. by apply (Hinj _ H').
Qed.

Lemma rename_new_not_old old new :
  columns_to_rename !! old = Some new → columns_to_rename !! new = None.
Proof.
  intros H. apply elem_of_list_to_map_2 in H.
  pose proof rename_values_not_keys as Hnk. rewrite Forall_forall in Hnk.
  apply (Hnk _ H).
Qed.

Lemma columns_rename df :
  columns (rename_columns df) = rename_label columns_to_rename <$> columns df.
Proof.
  unfold rename_columns, rename, columns. rewrite <- !list_fmap_compose.
  by apply list_fmap_ext.
Qed.

(** X8: once the columns are renamed, none of the old names is a column of
    the table any more. *)
Theorem rename_removes_old_names df old :
  is_Some (columns_to_rename !! old) → old ∉ columns (rename_columns df).
Proof.
  intros [new Hold] Hin. rewrite columns_rename in Hin.
  apply list_elem_of_fmap in Hin as (c & Hc & _). unfold rename_label in Hc.
  destruct (columns_to_rename !! c) as [new'|] eqn:E; simpl in Hc; subst.
  - apply rename_new_not_old in E. congruence.
  - congruence.
Qed.

(** X9: renaming changes no cell and no row count, and on a table with
    distinct column names it leaves the names distinct exactly when no old
    name stands in the table beside its own new name. *)
Theorem rename_keeps_names_distinct df :
  (rename_columns df).*2 = df.*2
  ∧ nrows (rename_columns df) = nrows df
  ∧ (NoDup (columns df) →
     (NoDup (columns (rename_columns df))
      ↔ ∀ old new, columns_to_rename !! old = Some new →
                   old ∈ columns df → new ∉ columns df)).
Proof.
  split_and!.
  - unfold rename_columns, rename. rewrite <- list_fmap_compose.
    by apply list_fmap_ext.
  - by destruct df as [|[c s] df].
  - intros Hnd. rewrite columns_rename. split.
    + intros Hnd' old new Hmap Hold Hnew.
      apply list_elem_of_lookup in Hold as [i Hi].
      apply list_elem_of_lookup in Hnew as [j Hj].
      assert (i = j) as ->.
      { eapply (NoDup_lookup _ _ _ new Hnd').
        - rewrite list_lookup_fmap, Hi. simpl. unfold rename_label.
          by rewrite Hmap.
        - rewrite list_lookup_fmap, Hj. simpl. unfold rename_label.
          by rewrite (rename_new_not_old _ _ Hmap). }
      assert (old = new) as -> by congruence.
      apply rename_new_not_old in Hmap as Hnone. congruence.
    + intros Hfree. apply NoDup_fmap_2_strong; [|done].
      intros c c' Hc Hc' Heq. unfold rename_label in Heq.
      destruct (columns_to_rename !! c) as [new|] eqn:E;
        destruct (columns_to_rename !! c') as [new'|] eqn:E';
        simpl in Heq.
      * rewrite <- Heq in E'. by eapply rename_lookup_injective.
      * rewrite <- Heq in Hc'. by destruct (Hfree c new E Hc).
      * rewrite Heq in Hc. by destruct (Hfree c' new' E' Hc').
      * done.
Qed.

End renamer_more.

Lemma rename_removes_old_names_witness :
  "TRE_wind_4" ∉ columns (TestPy.rename_columns wind_table).
Proof.
  apply rename_removes_old_names. vm_compute. by eexists.
Defined.

Lemma rename_keeps_names_distinct_witness :
  NoDup (columns (TestPy.rename_columns wind_table)).
Proof.
  destruct (rename_keeps_names_distinct wind_table) as (_ & _ & H).
  apply H.
  - apply (bool_decide_unpack _). vm_compute. exact I.
  - intros old new Hmap Hold. apply list_elem_of_In in Hold. simpl in Hold.
    destruct Hold as [<-|[<-|[]]].
    + vm_compute in Hmap. discriminate.
    + vm_compute in Hmap. injection Hmap as <-.
      apply (bool_decide_unpack _). vm_compute. exact I.
Defined.

(** * More on the column replacer *)

Section replacer_more.
Context {V : Type}.
Import TestPy.
Implicit Types (df src tgt out : DataFrame V) (c : string)
  (cols : list string) (listing before rest : list (string * DataFrame V))
  (folder : gmap string (DataFrame V)).

Lemma replace_columns_Ok tgt src cols :
  (∀ c, c ∈ cols → c ∈ columns src) →
  ∃ out, replace_columns tgt src cols = Ok out.
Proof.
  revert tgt. induction cols as [|c cols IH]; intros tgt H.
  - by exists tgt.
  - simpl. destruct (getitem_elem src c) as (s & Hs & _); [apply H; left|].
    rewrite Hs. simpl. apply IH. intros c' Hc'. apply H. by right.
Qed.

Lemma replace_columns_Ok_inv tgt src cols out :
  replace_columns tgt src cols = Ok out → ∀ c, c ∈ cols → c ∈ columns src.
Proof.
  intros Hout c Hc. destruct (decide (c ∈ columns src)) as [|Hno]; [done|].
  pose proof (replace_columns_raises tgt src _ c Hc Hno) as Hr.
  by rewrite Hout in Hr.
Qed.

Lemma filter_fresh_snoc (l cols : list string) c :
  c ∉ cols →
  filter (λ c', c' ∉ l ++ [c]) cols = filter (λ c', c' ∉ l) cols.
Proof.
  intros Hc. induction cols as [|x cols IH]; [done|].
  apply not_elem_of_cons in Hc as [Hne Hc].
  rewrite !filter_cons, IH by done.
  destruct (decide (x ∈ l)) as [Hin|Hout].
  - rewrite !decide_False; [done|by auto|].
    intros H. apply H. rewrite elem_of_app. by left.
  - rewrite !decide_True; [done|done|].
    rewrite elem_of_app, list_elem_of_singleton.
    intros [?|?]; [done | congruence].
Qed.

Lemma filter_present_skip (l cols : list string) c :
  c ∈ l → filter (λ c', c' ∉ l) (c :: cols) = filter (λ c', c' ∉ l) cols.
Proof. intros Hc. rewrite filter_cons. by rewrite decide_False by auto. Qed.

Lemma columns_replace_columns tgt src cols out :
  NoDup cols → replace_columns tgt src cols = Ok out →
  columns out = columns tgt ++ filter (λ c, c ∉ columns tgt) cols.
Proof.
  revert tgt. induction cols as [|c cols IH]; intros tgt Hnd Hout.
  - simpl in Hout. injection Hout as <-. by rewrite filter_nil, app_nil_r.
  - apply NoDup_cons in Hnd as [Hc Hnd]. simpl in Hout.
    destruct (getitem src c) as [s|e]; simpl in Hout; [|done].
    rewrite (IH _ Hnd Hout), columns_setitem.
    destruct (contains tgt c) eqn:E.
    + apply contains_true in E. by rewrite filter_present_skip.
    + apply contains_false in E. rewrite filter_fresh_snoc by done.
      rewrite filter_cons, decide_True by done. by rewrite <- app_assoc.
Qed.

(** X11: after the replacer has processed a first file, its columns are the
    first file's columns in their order, followed by the listed columns
    the first file lacked, in the order of the list. *)
Theorem replacer_columns tgt src out :
  replace_columns tgt src columns_to_replace = Ok out →
  columns out
  = columns tgt ++ filter (λ c, c ∉ columns tgt) columns_to_replace.
Proof.
  apply columns_replace_columns.
  refine (bool_decide_unpack _ _). vm_compute. exact I.
Qed.

Lemma set_column_same df c (v : Series V) :
  NoDup (columns df) → getitem df c = Ok v → set_column df c v = df.
Proof.
  intros Hnd Hg. unfold set_column.
  rewrite (proj2 (contains_true df c)) by (by eapply getitem_Ok_columns).
  rewrite <- (list_fmap_id df) at 2. apply list_fmap_ext.
  intros i [c' s] Hi. simpl. destruct (decide (c' = c)) as [->|]; [|done].
  apply list_elem_of_lookup_2 in Hi.
  rewrite (getitem_NoDup _ _ _ Hnd Hi) in Hg. congruence.
Qed.

Lemma assign_same (v : string → Series V) df cols :
  NoDup (columns df) → (∀ c, c ∈ cols → getitem df c = Ok (v c)) →
  assign v df cols = df.
Proof.
  intros Hnd. induction cols as [|c cols IH]; intros H; [done|].
  rewrite assign_cons, set_column_same; [|done|apply H; left].
  apply IH. intros c' Hc'. apply H. by right.
Qed.

Lemma replace_columns_twice tgt src cols out :
  wf_frame src → NoDup cols → NoDup (columns tgt) →
  replace_columns tgt src cols = Ok out →
  replace_columns out src cols = Ok out.
Proof.
  intros Hwf Hndc Hndt Hout.
  destruct cols as [|c0 cols'] eqn:Ecols.
  { simpl in *. done. }
  rewrite <- Ecols in *.
  assert (supplies (nrows src) src cols) as Hsup.
  { apply wf_frame_supplies; [done|]. intros c Hc.
    by eapply replace_columns_Ok_inv. }
  set (n := rows_after (nrows src) tgt).
  set (v := λ c, reindex n (column src c)).
  assert (settled n (nrows src) out) as Hset.
  { rewrite Ecols in Hout, Hsup. simpl in Hout.
    apply supplies_cons in Hsup as [(s & Hg & Hl & Hc) Hsup].
    rewrite Hg in Hout. simpl in Hout.
    destruct (setitem_first tgt c0 s) as [_ Hs]. rewrite Hl in Hs.
    rewrite (replace_columns_settled _ _ _ _ _ Hs Hsup) in Hout.
    injection Hout as <-. apply settled_assign; [done|].
    intros c _. apply length_reindex. }
  assert (∀ c, c ∈ cols → getitem out c = Ok (v c)) as Hget.
  { rewrite (replace_columns_closed (nrows src)) in Hout;
      [|by rewrite Ecols|done].
    injection Hout as <-. intros c Hc. by apply (getitem_assign_in v). }
  assert (NoDup (columns out)) as Hndo.
  { rewrite (columns_replace_columns _ _ _ _ Hndc Hout).
    apply NoDup_app. split_and!; [done| |by apply NoDup_filter].
    intros c Hc Hc'. by apply list_elem_of_filter in Hc' as [? _]. }
  rewrite (replace_columns_settled _ _ _ _ _ Hset Hsup).
  f_equal. by apply assign_same.
Qed.

(** X12: the replacer is idempotent: run again on a table it has produced,
    with the same second file, it produces that table again. *)
Theorem replacer_idempotent tgt src out :
  wf_frame src → NoDup (columns tgt) →
  replace_columns tgt src columns_to_replace = Ok out →
  replace_columns out src columns_to_replace = Ok out.
Proof.
  intros Hwf Hnd. apply replace_columns_twice; [done| |done].
  refine (bool_decide_unpack _ _). vm_compute. exact I.
Qed.

Lemma replace_loop_app before rest folder :
  replace_loop (before ++ rest) folder
  = and_then (replace_loop before folder) (replace_loop rest folder).
Proof.
  induction before as [|[f tgt] before IH].
  - simpl. unfold and_then. simpl. by destruct (replace_loop rest folder).
  - rewrite <- app_comm_cons, !replace_loop_cons.
    destruct (endswith f ".csv"); [|exact IH].
    destruct (replaced folder (f, tgt)) as [df|e]; [|done].
    rewrite IH. unfold and_then, after.
    by destruct (replace_loop before folder) as [t [e|]].
Qed.

(** X13: when the replacer fails on a file, what it has written for the
    files listed before stays written, nothing is written for that file
    or the files after it, and the closing message is not printed. *)
Theorem replacer_stops_at_failure before rest folder file_name tgt e :
  raised (replace_loop before folder) = None →
  endswith file_name ".csv" = true →
  replaced folder (file_name, tgt) = Raise e →
  replace_job (before ++ (file_name, tgt) :: rest) folder
  = Run (trace (replace_loop before folder)) (Some e).
Proof.
  intros Hb Hx He. unfold replace_job.
  rewrite replace_loop_app, replace_loop_cons, Hx, He.
  unfold and_then. rewrite Hb. simpl. by rewrite app_nil_r.
Qed.

(** X14: the names the replacer lists are the new names of the renamer:
    a second file that had every old name has, once renamed, every listed
    column, so the replacer finds them all; a second file with none of the
    listed columns makes it raise. *)
Theorem renamed_file_feeds_replacer tgt df :
  ((∀ old, is_Some (columns_to_rename !! old) → old ∈ columns df) →
   ∃ out, replace_columns tgt (rename_columns df) columns_to_replace = Ok out)
  ∧ ((∀ c, c ∈ columns_to_replace → c ∉ columns df) →
     raises (replace_columns tgt df columns_to_replace)).
Proof.
  split.
  - intros Hold. apply replace_columns_Ok. intros c Hc.
    change columns_to_replace with (rename_pairs.*2) in Hc.
    apply list_elem_of_fmap in Hc as ([old new] & -> & Hin). simpl.
    pose proof (elem_of_list_to_map_1 (M:=gmap string) _ _ _
                  rename_keys_NoDup Hin) as Hmap.
    fold columns_to_rename in Hmap.
    rewrite columns_rename. apply list_elem_of_fmap. exists old. split.
    + unfold rename_label. by rewrite Hmap.
    + apply Hold. by eexists.
  - intros Hnone.
    apply (replace_columns_raises tgt df columns_to_replace
             "TRE_WEST_landbasedwind_class1_moderate_1").
    + left.
    + apply Hnone. left.
Qed.

End replacer_more.

(** A second folder file that still carries the old names. *)
Lemma replacer_columns_witness :
  ∃ out,
    TestPy.replace_columns unlisted_table replacement_table
      TestPy.columns_to_replace = Ok out
    ∧ columns out = "A" :: TestPy.columns_to_replace.
Proof.
  assert (∃ out, TestPy.replace_columns unlisted_table replacement_table
                   TestPy.columns_to_replace = Ok out) as [out E].
  { eexists. vm_compute. reflexivity. }
  exists out. split; [exact E|].
  rewrite (replacer_columns unlisted_table replacement_table out E).
  vm_compute. reflexivity.
Defined.

Lemma replacer_idempotent_witness :
  ∃ out,
    TestPy.replace_columns header_only replacement_table
      TestPy.columns_to_replace = Ok out
    ∧ TestPy.replace_columns out replacement_table
        TestPy.columns_to_replace = Ok out.
Proof.
  assert (∃ out, TestPy.replace_columns header_only replacement_table
                   TestPy.columns_to_replace = Ok out) as [out E].
  { eexists. vm_compute. reflexivity. }
  exists out. split; [exact E|].
  apply (replacer_idempotent header_only replacement_table out
           wf_replacement_table); [|exact E].
  apply (bool_decide_unpack _). vm_compute. exact I.
Defined.

Lemma replacer_stops_at_failure_witness :
  TestPy.replace_job
    ([("a.csv", first_table)] ++ ("b.csv", first_table) :: [("c.csv", first_table)])
    {[ "a.csv" := replacement_table ]}
  = Run (trace (TestPy.replace_loop [("a.csv", first_table)]
                  {[ "a.csv" := replacement_table ]}))
        (Some (FileNotFoundError "Generators_variability/b.csv")).
Proof.
  apply replacer_stops_at_failure.
  - vm_compute. reflexivity.
  - vm_compute. reflexivity.
  - vm_compute. reflexivity.
Defined.

Lemma endswith_spec_witness : endswith "load_2020.csv" ".csv" = true.
Proof. apply endswith_spec. by exists "load_2020". Defined.

Lemma renamed_file_feeds_replacer_witness :
  (∃ out,
     TestPy.replace_columns first_table
       (TestPy.rename_columns old_names_table) TestPy.columns_to_replace
     = Ok out)
  ∧ raises (TestPy.replace_columns first_table old_names_table
              TestPy.columns_to_replace).
Proof.
  destruct (renamed_file_feeds_replacer first_table old_names_table)
    as [H1 H2].
  split.
  - apply H1. intros old [new Hmap].
    apply elem_of_list_to_map_2 in Hmap.
    change (columns old_names_table) with (TestPy.rename_pairs.*1).
    apply list_elem_of_fmap. by exists (old, new).
  - apply H2.
    assert (Forall (λ c, c ∉ columns old_names_table)
                   TestPy.columns_to_replace) as HF.
    { apply (bool_decide_unpack _). vm_compute. exact I. }
    intros c Hc. rewrite Forall_forall in HF. by apply HF.
Defined.

(** * More on reconciliation and on the copier *)

Section reconcile_more.
Context {V : Type}.
Import TestPy.
Implicit Types (df ref cur out src tgt : DataFrame V) (c : string)
  (cols cs : list string).

Context (set_iter : gset string → list string).
Hypothesis set_iter_elements : ∀ s, set_iter s ≡ₚ elements s.

Lemma getitem_list_Ok_columns df cs out :
  getitem_list df cs = Ok out → columns out = cs.
Proof.
  revert out. induction cs as [|c cs IH]; intros out H; simpl in H.
  - by injection H as <-.
  - destruct (getitem df c) as [s|e]; simpl in H; [|done].
    destruct (getitem_list df cs) as [rest|e]; simpl in H; [|done].
    injection H as <-. unfold columns. simpl. f_equal. by apply IH.
Qed.

Lemma getitem_list_skip df c (s : Series V) cs :
  c ∉ cs → getitem_list ((c, s) :: df) cs = getitem_list df cs.
Proof.
  induction cs as [|c' cs IH]; intros Hc; [done|].
  apply not_elem_of_cons in Hc as [Hne Hc]. simpl.
  rewrite decide_False by done. by rewrite IH.
Qed.

Lemma getitem_list_self df :
  NoDup (columns df) → getitem_list df (columns df) = Ok df.
Proof.
  induction df as [|[c s] df IH]; intros Hnd; [done|].
  apply NoDup_cons in Hnd as [Hc Hnd].
  change (columns ((c, s) :: df)) with (c :: columns df).
  simpl. rewrite decide_True by done. simpl.
  rewrite getitem_list_skip by done. by rewrite IH.
Qed.

(** X15: reconciliation is idempotent: a table it has produced is
    reconciled to itself, and so is the reference. *)
Theorem reconcile_idempotent ref cur out :
  NoDup (columns ref) →
  (reconcile set_iter ref cur = Ok out → reconcile set_iter ref out = Ok out)
  ∧ reconcile set_iter ref ref = Ok ref.
Proof.
  intros Hnd.
  assert (∀ df, columns df = columns ref → reconcile set_iter ref df = Ok df)
    as Hself.
  { intros df Hcols. unfold reconcile, missing_columns.
    rewrite Hcols, difference_diag_L.
    assert (set_iter ∅ = []) as ->.
    { apply Permutation_nil_r. by rewrite set_iter_elements, elements_empty. }
    simpl. rewrite <- Hcols. apply getitem_list_self. by rewrite Hcols. }
  split; [|by apply Hself].
  intros H. apply Hself. unfold reconcile in H.
  destruct (add_columns _ _ _) as [cur'|e]; simpl in H; [|done].
  by eapply getitem_list_Ok_columns.
Qed.

Lemma insert_columns_Ok_columns src tgt cols out :
  insert_columns src tgt cols = Ok out →
  ∀ c, c ∈ cols ∨ c ∈ columns tgt → c ∈ columns out.
Proof.
  revert tgt. induction cols as [|c0 cols IH]; intros tgt H c Hc.
  - simpl in H. injection H as <-. destruct Hc as [Hc|Hc]; [|done].
    by apply elem_of_nil in Hc.
  - simpl in H. destruct (getitem src c0) as [s|e]; simpl in H; [|done].
    unfold insert in H. destruct (contains tgt c0); simpl in H; [done|].
    rewrite drop_0 in H. apply (IH _ H).
    change (c ∈ cols ∨ c ∈ c0 :: columns (adopt_index (length s) tgt)).
    rewrite columns_adopt_index.
    destruct Hc as [Hc|Hc].
    + apply elem_of_cons in Hc as [->|Hc]; [right; left | by left].
    + right. by right.
Qed.

(** X16: the copier cannot be run twice on a file: on a table it has
    produced, a non-empty slice meets its own names and the insert
    raises. *)
Theorem copier_twice_raises first last src tgt out :
  copy_columns first last src tgt = Ok out →
  columns_to_copy first last src ≠ [] →
  raises (copy_columns first last src out).
Proof.
  unfold copy_columns. intros H Hne.
  destruct (columns_to_copy first last src) as [|c cols] eqn:E; [done|].
  apply (insert_columns_collision src out (c :: cols) c); [left|].
  eapply insert_columns_Ok_columns; [exact H|]. left. left.
Qed.

End reconcile_more.

Lemma reconcile_idempotent_witness :
  ∃ out,
    TestPy.reconcile elements sample_reference short_target = Ok out
    ∧ TestPy.reconcile elements sample_reference out = Ok out.
Proof.
  assert (∃ out, TestPy.reconcile elements sample_reference short_target
                 = Ok out) as [out E].
  { eexists. vm_compute. reflexivity. }
  destruct (reconcile_idempotent elements (λ s, reflexivity _)
              sample_reference short_target out) as [H _].
  - apply (bool_decide_unpack _). vm_compute. exact I.
  - exists out. split; [exact E | exact (H E)].
Defined.

Lemma copier_twice_raises_witness :
  ∃ out,
    TestPy.copy_columns TestPy.start_col TestPy.end_col
      sample_source sample_target = Ok out
    ∧ raises (TestPy.copy_columns TestPy.start_col TestPy.end_col
                sample_source out).
Proof.
  assert (∃ out, TestPy.copy_columns TestPy.start_col TestPy.end_col
                   sample_source sample_target = Ok out) as [out E].
  { eexists. vm_compute. reflexivity. }
  exists out. split; [exact E|].
  apply (copier_twice_raises _ _ _ sample_target); [exact E|].
  vm_compute. discriminate.
Defined.

(** X17: the slice of column names is clipped, not checked: its name at
    position [i] is the source's column at position [first + i] as long as
    that position is at most [last] and the source has it, and there is no
    further name; a slice that starts or reaches past the last column is
    shorter or empty. *)
Theorem columns_to_copy_lookup {V} first last (src : DataFrame V) (i : nat) :
  TestPy.columns_to_copy first last src !! i
  = (if decide (first + i ≤ last) then columns src !! (first + i) else None)
  ∧ length (TestPy.columns_to_copy first last src)
    = (last + 1) `min` length src - first.
Proof.
  unfold TestPy.columns_to_copy, TestPy.slice. split.
  - rewrite lookup_take, lookup_drop.
    destruct (decide (i < last + 1 - first));
      destruct (decide (first + i ≤ last)); try done; lia.
  - rewrite length_take, length_drop. unfold columns.
    rewrite length_fmap. lia.
Qed.

